(** * The simplified AI service (Express app with /health, /generate, /stats)

    A shallow embedding of the request handlers of the AI service runner:
    JavaScript values as an inductive type, the handlers as functions in a
    small state-and-exception monad over the log file, and the server as a
    fold of the handlers over a sequence of requests.  The batch queue of
    the adaptive service, which the runner does not contain, is modelled
    separately in [BatchQueue]. *)

From Stdlib Require Import String Ascii List ZArith Bool Lia.
From Stdlib Require Import Floats.PrimFloat Floats.FloatOps Floats.SpecFloat.
From Stdlib Require Import DecimalString.
Import ListNotations.

Set Warnings "-register-all".

Local Open Scope Z_scope.
Local Open Scope string_scope.

Definition newline : string := String (ascii_of_nat 10) EmptyString.
Definition dquote : string := String (ascii_of_nat 34) EmptyString.

(** ** JavaScript values *)

(** The values a handler sees: what [JSON.parse] produces (null, booleans,
    doubles, strings, arrays, objects with their own properties in order,
    each key once), and [undefined] for a property that is not there. *)
Inductive value : Type :=
| JUndefined
| JNull
| JBool (b : bool)
| JNumber (f : float)
| JString (s : string)
| JArray (items : list value)
| JObject (fields : list (string * value)).

(** The outcome of an expression that may throw (here always a TypeError). *)
Inductive result (A : Type) : Type :=
| Ok (a : A)
| Throw.
Arguments Ok {A} a.
Arguments Throw {A}.

Definition rbind {A B} (r : result A) (k : A -> result B) : result B :=
  match r with
  | Ok a => k a
  | Throw => Throw
  end.

(** ToBoolean: [undefined], [null], [false], [0], [-0], [NaN] and [""] are
    falsy, every object and array is truthy. *)
Definition truthy (v : value) : bool :=
  match v with
  | JUndefined | JNull => false
  | JBool b => b
  | JNumber f => negb (PrimFloat.is_zero f || PrimFloat.is_nan f)
  | JString s => negb (s =? "")
  | JArray _ | JObject _ => true
  end.

Definition isArray (v : value) : bool :=
  match v with
  | JArray _ => true
  | _ => false
  end.

(** Own property of an object: the first binding of the key. *)
Fixpoint own (k : string) (fields : list (string * value)) : option value :=
  match fields with
  | [] => None
  | (k', v) :: rest => if k' =? k then Some v else own k rest
  end.

(** [v.k] for a key that no built-in prototype defines (userId, messages,
    complexity, priority, responseFormat, forceFresh, content): the own
    property of an object, [undefined] on anything else.  The receiver is
    not null or undefined. *)
Definition get (v : value) (k : string) : value :=
  match v with
  | JObject fields =>
      match own k fields with
      | Some x => x
      | None => JUndefined
      end
  | _ => JUndefined
  end.

(** A destructuring default [{ k = d }]: used when the property is
    [undefined]. *)
Definition with_default (v d : value) : value :=
  match v with
  | JUndefined => d
  | _ => v
  end.

(** [const { ... } = body] throws on null and undefined. *)
Definition destructure (reqBody : value) : result value :=
  match reqBody with
  | JUndefined | JNull => Throw
  | _ => Ok reqBody
  end.

(** [a[a.length - 1]] on an array. *)
Definition last_item (items : list value) : value :=
  last items JUndefined.

(** [x?.k] *)
Definition opt_get (v : value) (k : string) : value :=
  match v with
  | JUndefined | JNull => JUndefined
  | _ => get v k
  end.

(** [a || b] *)
Definition js_or (a b : value) : value :=
  if truthy a then a else b.

(** [v === 'text'] *)
Definition strict_eq_string (v : value) (text : string) : bool :=
  match v with
  | JString s => s =? text
  | _ => false
  end.

Section Runtime.

(** Number::toString of the JavaScript engine (shortest round-trip decimal
    of a double), taken as given. *)
Variable number_to_string : float -> string.

(** ToString, as a template literal and a computed property key apply it.
    An array joins its elements with commas, null and undefined elements
    giving the empty string.  An object goes through [toString] and then
    [valueOf]: an own [toString] property of a parsed object is never
    callable and hides Object.prototype.toString, and neither an own nor the
    inherited [valueOf] yields a primitive, so the conversion throws;
    without it the result is [[object Object]]. *)
Fixpoint ToString (v : value) : result string :=
  match v with
  | JUndefined => Ok "undefined"
  | JNull => Ok "null"
  | JBool true => Ok "true"
  | JBool false => Ok "false"
  | JNumber f => Ok (number_to_string f)
  | JString s => Ok s
  | JArray items =>
      (fix join (l : list value) : result string :=
         match l with
         | [] => Ok ""
         | x :: rest =>
             let piece :=
               match x with
               | JUndefined | JNull => Ok ""
               | _ => ToString x
               end in
             match rest with
             | [] => piece
             | _ :: _ =>
                 rbind piece (fun a =>
                 rbind (join rest) (fun b => Ok (a ++ "," ++ b)))
             end
         end) items
  | JObject fields =>
      match own "toString" fields with
      | Some _ => Throw
      | None => Ok "[object Object]"
      end
  end.

(** What [JSON.stringify] keeps of a value, which is what [res.json] sends:
    properties whose value is undefined are left out, undefined array
    elements and non-finite numbers become null. *)
Fixpoint wire (v : value) : value :=
  match v with
  | JNumber f => if PrimFloat.is_finite f then JNumber f else JNull
  | JArray items =>
      JArray ((fix each (l : list value) : list value :=
                 match l with
                 | [] => []
                 | JUndefined :: rest => JNull :: each rest
                 | x :: rest => wire x :: each rest
                 end) items)
  | JObject fields =>
      JObject ((fix each (l : list (string * value)) : list (string * value) :=
                  match l with
                  | [] => []
                  | (_, JUndefined) :: rest => each rest
                  | (k, x) :: rest => (k, wire x) :: each rest
                  end) fields)
  | _ => v
  end.

(** ** The process and its environment *)

(** [process.env]: the two provider keys. *)
Record process_env : Type := {
  OPENAI_API_KEY : option string;
  GEMINI_API_KEY : option string
}.

(** [!!process.env.X]: set and not empty. *)
Definition env_set (x : option string) : bool :=
  match x with
  | Some s => negb (s =? "")
  | None => false
  end.

(** What one request reads from outside the program: the clock at each
    [new Date()] and [Date.now()], the uptime, and whether each
    [fs.appendFileSync] succeeds. *)
Record env : Type := {
  mw_stamp : string;       (* new Date().toISOString() in the request logger *)
  mw_write_ok : bool;      (* the request logger's append *)
  t_start : float;         (* Date.now() before the simulated work *)
  t_end : float;           (* Date.now() after it *)
  log_stamp : string;      (* new Date().toISOString() in the handler's log line *)
  log_write_ok : bool;     (* the handler's append *)
  health_stamp : string;   (* new Date().toISOString() in /health *)
  uptime : float;          (* process.uptime() *)
  createdAt : string;      (* new Date() in /stats, as JSON sends it *)
  lastCleanup : string
}.

(** What the handlers change: the log file, and the timers they wait for
    (delay in milliseconds). *)
Record world : Type := {
  logFile : list string;
  timers : list Z
}.

(** State, and state with exceptions. *)
Definition State (A : Type) : Type := world -> A * world.
Definition M (A : Type) : Type := State (result A).

Definition ret {A} (a : A) : M A := fun w => (Ok a, w).
Definition throw {A} : M A := fun w => (Throw, w).
Definition bind {A B} (m : M A) (k : A -> M B) : M B :=
  fun w =>
    match m w with
    | (Ok a, w') => k a w'
    | (Throw, w') => (Throw, w')
    end.
Definition lift {A} (r : result A) : M A := fun w => (r, w).

(** [try { m } catch { h }] *)
Definition try_catch {A} (m : M A) (h : State A) : State A :=
  fun w =>
    match m w with
    | (Ok a, w') => (a, w')
    | (Throw, w') => h w'
    end.

Notation "x <- m ;; k" := (bind m (fun x => k))
  (at level 61, m at next level, right associativity).
Notation "m ;;; k" := (bind m (fun _ => k))
  (at level 61, right associativity).

(** [fs.appendFileSync(LOG_FILE, line)]: throws when the write fails. *)
Definition appendFileSync (ok : bool) (line : string) : M unit :=
  fun w =>
    if ok
    then (Ok tt, {| logFile := (logFile w ++ [line])%list; timers := timers w |})
    else (Throw, w).

(** [await new Promise(resolve => setTimeout(resolve, ms))] *)
Definition await_timeout (ms : Z) : M unit :=
  fun w => (Ok tt, {| logFile := logFile w; timers := (timers w ++ [ms])%list |}).

(** ** Responses *)

Record response : Type := {
  status : Z;
  body : value
}.

(** [res.status(code).json(v)] *)
Definition res_json (code : Z) (v : value) : response :=
  {| status := code; body := wire v |}.

(** Reading a response: the field at a path of keys. *)
Fixpoint at_path (v : value) (path : list string) : option value :=
  match path with
  | [] => Some v
  | k :: rest =>
      match v with
      | JObject fields =>
          match own k fields with
          | Some x => at_path x rest
          | None => None
          end
      | _ => None
      end
  end.

(** ** The request logger *)

Definition request_logging (e : env) (method path : string) : State unit :=
  try_catch
    (appendFileSync (mw_write_ok e)
       (mw_stamp e ++ " - " ++ method ++ " " ++ path ++ newline))
    (fun w => (tt, w)).

(** ** GET /health *)

Definition health (p : process_env) (e : env) : State response :=
  fun w =>
    let openaiAvailable := env_set (OPENAI_API_KEY p) in
    let geminiAvailable := env_set (GEMINI_API_KEY p) in
    let code := if openaiAvailable || geminiAvailable then 200 else 503 in
    (res_json code
       (JObject
          [("status", JString (if (code =? 200)%Z then "healthy" else "degraded"));
           ("timestamp", JString (health_stamp e));
           ("services",
             JObject
               [("openai",
                  JString (if openaiAvailable then "available" else "unavailable"));
                ("gemini",
                  JString (if geminiAvailable then "available" else "unavailable"))]);
           ("uptime", JNumber (uptime e))]),
     w).

(** ** POST /generate *)

(** A property read on the [processingTimes] literal: one of its four
    delays, or a member inherited from Object.prototype (a function or an
    object, so truthy and not a number), or undefined. *)
Inductive table_entry : Type :=
| Delay (ms : Z)
| Inherited
| Missing.

Definition processingTimes : list (string * Z) :=
  [("low", 500); ("medium", 1500); ("high", 3000); ("very_high", 5000)].

Definition object_prototype_keys : list string :=
  ["constructor"; "__defineGetter__"; "__defineSetter__"; "hasOwnProperty";
   "__lookupGetter__"; "__lookupSetter__"; "isPrototypeOf";
   "propertyIsEnumerable"; "toString"; "valueOf"; "__proto__";
   "toLocaleString"].

Fixpoint assoc (k : string) (table : list (string * Z)) : option Z :=
  match table with
  | [] => None
  | (k', ms) :: rest => if k' =? k then Some ms else assoc k rest
  end.

Definition processingTimes_at (key : string) : table_entry :=
  match assoc key processingTimes with
  | Some ms => Delay ms
  | None =>
      if existsb (String.eqb key) object_prototype_keys
      then Inherited
      else Missing
  end.

(** [processingTimes[complexity] || 1500], as a timer delay: every delay
    of the table is truthy, and a delay that is not a number makes the timer
    fire after one millisecond. *)
Definition processingTime_ms (entry : table_entry) : Z :=
  match entry with
  | Delay ms => ms
  | Inherited => 1
  | Missing => 1500
  end.

Definition invalid_request : value :=
  JObject
    [("error", JString "Invalid request. Required fields: userId, messages (array)")].

Definition generation_failed : value :=
  JObject [("error", JString "Failed to generate AI response")].

Definition generate (e : env) (reqBody : value) : State response :=
  try_catch
    (b <- lift (destructure reqBody) ;;
     let userId := get b "userId" in
     let messages := get b "messages" in
     let complexity := get b "complexity" in
     let priority := get b "priority" in
     let responseFormat := with_default (get b "responseFormat") (JString "text") in
     let forceFresh := with_default (get b "forceFresh") (JBool false) in
     if negb (truthy userId) || negb (truthy messages) || negb (isArray messages)
     then ret (res_json 400 invalid_request)
     else
       let startTime := t_start e in
       key <- lift (ToString complexity) ;;
       let processingTime := processingTime_ms (processingTimes_at key) in
       (if truthy forceFresh then await_timeout processingTime else ret tt) ;;;
       let duration := PrimFloat.sub (t_end e) startTime in
       (* the console.log line *)
       shownComplexity <- lift (ToString complexity) ;;
       shownPriority <- lift (ToString priority) ;;
       (* the log file line *)
       shownUser <- lift (ToString userId) ;;
       loggedComplexity <- lift (ToString complexity) ;;
       appendFileSync (log_write_ok e)
         (log_stamp e ++ " - Generated response for user " ++ shownUser
            ++ ", complexity: " ++ loggedComplexity
            ++ ", time: " ++ number_to_string duration ++ "ms" ++ newline) ;;;
       let asked :=
         match messages with
         | JArray items => opt_get (last_item items) "content"
         | _ => JUndefined
         end in
       quoted <- lift (ToString (js_or asked (JString "your query"))) ;;
       ret (res_json 200
              (JObject
                 [("response",
                    JString ("This is a test response to: " ++ dquote ++ quoted ++ dquote));
                  ("metadata",
                    JObject
                      [("complexity", complexity);
                       ("processingTime", JNumber duration);
                       ("modelUsed",
                         JString (if strict_eq_string complexity "high"
                                  then "gpt-4o" else "gpt-3.5-turbo"));
                       ("cached", JBool (negb (truthy forceFresh)))])])))
    (fun w => (res_json 500 generation_failed, w)).

(** ** GET /stats *)

Definition stats (e : env) : State response :=
  fun w =>
    (res_json 200
       (JObject
          [("activePrompts", JNumber 0);
           ("queueSizes",
             JObject
               [("critical", JNumber 0); ("high", JNumber 0);
                ("normal", JNumber 0); ("low", JNumber 0)]);
           ("isProcessingBatch", JBool false);
           ("cache",
             JObject
               [("hits", JNumber 25); ("misses", JNumber 10);
                ("size", JNumber 35); ("diskSize", JNumber 15);
                ("fingerprintHits", JNumber 5);
                ("createdAt", JString (createdAt e));
                ("lastCleanup", JString (lastCleanup e))])]),
     w).

(** ** The server *)

Inductive request : Type :=
| GET_health
| POST_generate (reqBody : value)
| GET_stats.

(** One request: the logger, then the route's handler. *)
Definition serve (p : process_env) (e : env) (r : request) : State response :=
  fun w =>
    match r with
    | GET_health =>
        let '(_, w1) := request_logging e "GET" "/health" w in health p e w1
    | POST_generate reqBody =>
        let '(_, w1) := request_logging e "POST" "/generate" w in
        generate e reqBody w1
    | GET_stats =>
        let '(_, w1) := request_logging e "GET" "/stats" w in stats e w1
    end.

(** A sequence of requests, one after the other, each with what it reads
    from outside. *)
Fixpoint serve_all (p : process_env) (reqs : list (request * env)) (w : world)
  : list response * world :=
  match reqs with
  | [] => ([], w)
  | (r, e) :: rest =>
      let '(answer, w1) := serve p e r w in
      let '(answers, w2) := serve_all p rest w1 in
      (answer :: answers, w2)
  end.

End Runtime.

(** ** Reading requests and responses *)

(** The validation of /generate, as the handler writes it. *)
Definition passes_validation (reqBody : value) : bool :=
  negb (negb (truthy (get reqBody "userId"))
        || negb (truthy (get reqBody "messages"))
        || negb (isArray (get reqBody "messages"))).

Definition nullish (v : value) : bool :=
  match v with
  | JUndefined | JNull => true
  | _ => false
  end.

(** The values ToString does not throw on: no object with a [toString]
    property of its own, at any depth of arrays. *)
Fixpoint printable (v : value) : bool :=
  match v with
  | JArray items =>
      (fix all (l : list value) : bool :=
         match l with
         | [] => true
         | x :: rest => printable x && all rest
         end) items
  | JObject fields =>
      match own "toString" fields with
      | Some _ => false
      | None => true
      end
  | _ => true
  end.

(** Induction on values, through the elements of arrays and the
    properties of objects. *)
Section ValueInduction.

Variable P : value -> Prop.
Hypothesis P_undefined : P JUndefined.
Hypothesis P_null : P JNull.
Hypothesis P_bool : forall b, P (JBool b).
Hypothesis P_number : forall f, P (JNumber f).
Hypothesis P_string : forall s, P (JString s).
Hypothesis P_array : forall items, Forall P items -> P (JArray items).
Hypothesis P_object :
  forall fields, Forall (fun kv => P (snd kv)) fields -> P (JObject fields).

Fixpoint value_induction (v : value) : P v :=
  match v with
  | JUndefined => P_undefined
  | JNull => P_null
  | JBool b => P_bool b
  | JNumber f => P_number f
  | JString s => P_string s
  | JArray items =>
      P_array items
        ((fix each (l : list value) : Forall P l :=
            match l with
            | [] => Forall_nil P
            | x :: rest => Forall_cons x (value_induction x) (each rest)
            end) items)
  | JObject fields =>
      P_object fields
        ((fix each (l : list (string * value))
            : Forall (fun kv => P (snd kv)) l :=
            match l with
            | [] => Forall_nil _
            | kv :: rest =>
                Forall_cons kv (value_induction (snd kv)) (each rest)
            end) fields)
  end.

End ValueInduction.

(** A property is present in an object. *)
Definition has (reqBody : value) (k : string) : bool :=
  match reqBody with
  | JObject fields =>
      match own k fields with
      | Some _ => true
      | None => false
      end
  | _ => false
  end.

(** The request's forceFresh, false when it gives none. *)
Definition forceFresh_of (reqBody : value) : value :=
  with_default (get reqBody "forceFresh") (JBool false).

(** What the handler quotes back: the content of the last message, or the
    fixed text. *)
Definition quoted_of (reqBody : value) : value :=
  js_or
    match get reqBody "messages" with
    | JArray items => opt_get (last_item items) "content"
    | _ => JUndefined
    end
    (JString "your query").

(** The object a successful /generate sends when it quotes [quoted]. *)
Definition generated (e : env) (reqBody : value) (quoted : string) : value :=
  JObject
    [("response",
       JString ("This is a test response to: " ++ dquote ++ quoted ++ dquote));
     ("metadata",
       JObject
         [("complexity", get reqBody "complexity");
          ("processingTime", JNumber (PrimFloat.sub (t_end e) (t_start e)));
          ("modelUsed",
            JString (if strict_eq_string (get reqBody "complexity") "high"
                     then "gpt-4o" else "gpt-3.5-turbo"));
          ("cached", JBool (negb (truthy (forceFresh_of reqBody))))])].

(** What a response carries of a property it was given. *)
Definition sent (v : value) : option value :=
  match v with
  | JUndefined => None
  | _ => Some (wire v)
  end.

(** The model a tier is expected to select: the cheap one below [high],
    the capable one from [high] up. *)
Definition cheap_model : string := "gpt-3.5-turbo".
Definition capable_model : string := "gpt-4o".

(** An instance of Number::toString for the examples: exact on NaN, the
    infinities, the zeros and the integral doubles below 10^21, which is
    what the examples print; a fraction is cut to its integer part. *)
Definition integral_number_to_string (f : float) : string :=
  match Prim2SF f with
  | S754_zero _ => "0"
  | S754_infinity false => "Infinity"
  | S754_infinity true => "-Infinity"
  | S754_nan => "NaN"
  | S754_finite s m e =>
      let n := if (0 <=? e)%Z then Z.pos m * 2 ^ e else Z.pos m / 2 ^ (- e) in
      NilZero.string_of_int (Z.to_int (if s then - n else n))
  end.

(** An environment and a process for the examples. *)
Definition example_env : env :=
  {| mw_stamp := "2025-01-01T00:00:00.000Z";
     mw_write_ok := true;
     t_start := 1735689600000;
     t_end := 1735689600002;
     log_stamp := "2025-01-01T00:00:00.002Z";
     log_write_ok := true;
     health_stamp := "2025-01-01T00:00:00.000Z";
     uptime := 12;
     createdAt := "2025-01-01T00:00:00.000Z";
     lastCleanup := "2025-01-01T00:00:00.000Z" |}.

Definition example_process : process_env :=
  {| OPENAI_API_KEY := Some "sk-test"; GEMINI_API_KEY := None |}.

Definition fresh_world : world := {| logFile := []; timers := [] |}.

Definition snack_messages : value :=
  JArray [JObject [("role", JString "user");
                   ("content", JString "What are some healthy snacks?")]].

(** A request of user 1 with the snack question, at a tier, a priority and
    a forceFresh flag. *)
Definition snack_request (complexity priority : string) (forceFresh : bool) : value :=
  JObject [("userId", JNumber 1); ("messages", snack_messages);
           ("complexity", JString complexity); ("priority", JString priority);
           ("forceFresh", JBool forceFresh)].

(** A request that carries both required fields, with the user id 0. *)
Definition user_zero_request : value :=
  JObject [("userId", JNumber 0); ("messages", snack_messages)].

(** ** The batch queue of the adaptive service *)

Module BatchQueue.

(** Modelled from the spec: the batch/priority queue of the adaptive service
    (server/adaptive-ai-service), which the repository's runner and tests
    call and which is not among the sources.  Section 4.3: an item enters at
    a tier; critical is processed synchronously and never queued; the others
    are appended to a per-tier sequence; a flush tick drains the sequences
    strictly in tier order, high before normal before low, up to a per-tick
    batch size limit.  Retries, cancellation and the estimated wait are not
    modelled. *)
Inductive tier : Type := critical | high | normal | low.

(** Modelled from the spec: a queue item, section 3 ({request, priority
    tier, enqueueTime}). *)
Record QueueItem : Type := {
  request : value;
  priority : tier;
  enqueueTime : Z
}.

(** Modelled from the spec: one ordered sequence per tier that can wait. *)
Record queues : Type := {
  q_high : list QueueItem;
  q_normal : list QueueItem;
  q_low : list QueueItem
}.

Definition empty : queues := {| q_high := []; q_normal := []; q_low := [] |}.

(** Modelled from the spec: the answer of [enqueue], queued at a position
    or not queued. *)
Inductive ack : Type :=
| Queued (position : nat)
| NotQueued.

Definition queued (a : ack) : bool :=
  match a with
  | Queued _ => true
  | NotQueued => false
  end.

(** Modelled from the spec: a critical item is not queued, any other is
    appended to the sequence of its tier. *)
Definition enqueue (item : QueueItem) (q : queues) : ack * queues :=
  match priority item with
  | critical => (NotQueued, q)
  | high =>
      (Queued (length (q_high q)),
       {| q_high := q_high q ++ [item]; q_normal := q_normal q; q_low := q_low q |})
  | normal =>
      (Queued (length (q_normal q)),
       {| q_high := q_high q; q_normal := q_normal q ++ [item]; q_low := q_low q |})
  | low =>
      (Queued (length (q_low q)),
       {| q_high := q_high q; q_normal := q_normal q; q_low := q_low q ++ [item] |})
  end%list.

Fixpoint enqueue_all (items : list QueueItem) (q : queues) : queues :=
  match items with
  | [] => q
  | item :: rest => enqueue_all rest (snd (enqueue item q))
  end.

(** Modelled from the spec: one flush tick, the items it services in
    order, high before normal before low and at most [limit] of them, and
    what stays queued. *)
Definition flush (limit : nat) (q : queues) : list QueueItem * queues :=
  let fromHigh := firstn limit (q_high q) in
  let left1 := (limit - length fromHigh)%nat in
  let fromNormal := firstn left1 (q_normal q) in
  let left2 := (left1 - length fromNormal)%nat in
  let fromLow := firstn left2 (q_low q) in
  ((fromHigh ++ fromNormal ++ fromLow)%list,
   {| q_high := skipn limit (q_high q);
      q_normal := skipn left1 (q_normal q);
      q_low := skipn left2 (q_low q) |}).

(** Modelled from the spec: [n] ticks in a row, nothing arriving in
    between. *)
Fixpoint ticks (limit n : nat) (q : queues) : list QueueItem * queues :=
  match n with
  | O => ([], q)
  | S n' =>
      let '(now, q1) := flush limit q in
      let '(later, q2) := ticks limit n' q1 in
      ((now ++ later)%list, q2)
  end.

(** Modelled from the spec: the sizes the statistics show, critical
    first. *)
Definition queueSizes (q : queues) : nat * nat * nat * nat :=
  (0%nat, length (q_high q), length (q_normal q), length (q_low q)).

Definition pending (q : queues) : list QueueItem :=
  (q_high q ++ q_normal q ++ q_low q)%list.

Definition of_tier (t : tier) (item : QueueItem) : bool :=
  match t, priority item with
  | critical, critical | high, high | normal, normal | low, low => true
  | _, _ => false
  end.

End BatchQueue.

(** ** Starting the service *)

(** The same request, with another reading of the clock and another
    outcome of the write in the request logger. *)
Definition with_logger (e : env) (stamp : string) (ok : bool) : env :=
  {| mw_stamp := stamp;
     mw_write_ok := ok;
     t_start := t_start e;
     t_end := t_end e;
     log_stamp := log_stamp e;
     log_write_ok := log_write_ok e;
     health_stamp := health_stamp e;
     uptime := uptime e;
     createdAt := createdAt e;
     lastCleanup := lastCleanup e |}.

(** How a [fs.writeFileSync] ends: the file holds the new text, or the
    call throws and leaves the file in some state of its own. *)
Inductive file_write : Type :=
| Written
| WriteFailed (remains : option string).

(** What the start of the service reads from outside: the port variable of
    [process.env], the process id, whether the modules load, and how each
    call of [fs] ends. *)
Record boot_env : Type := {
  AI_SERVICE_PORT : option string;
  pid : float;              (* process.pid *)
  modules_ok : bool;        (* require('express'), 'cors', 'fs', 'path' *)
  mkdir_ok : bool;          (* fs.mkdirSync(LOG_DIR, { recursive: true }) *)
  port_write : file_write;  (* fs.writeFileSync('.ai-optimization.port', ...) *)
  pid_write : file_write;   (* fs.writeFileSync('.ai-optimization.pid', ...) *)
  boot_stamp : string;      (* new Date().toISOString() in the starting line *)
  boot_log_ok : bool;       (* the append of the starting line *)
  listen_stamp : string;    (* new Date().toISOString() in the listen callback *)
  listen_log_ok : bool      (* the append in the listen callback *)
}.

(** The files the service touches: the log directory, the port and pid
    files (absent, or their text), and the log file with the timers. *)
Record disk : Type := {
  logDir : bool;
  portFile : option string;
  pidFile : option string;
  service : world
}.

(** How the start ends: [process.exit(code)], or [app.listen(PORT)]
    called. *)
Inductive boot : Type :=
| Exited (code : Z) (d : disk)
| Listening (PORT : value) (d : disk).

(** [process.env.AI_SERVICE_PORT || 5200] *)
Definition PORT_of (b : boot_env) : value :=
  match AI_SERVICE_PORT b with
  | Some s => js_or (JString s) (JNumber 5200)
  | None => JNumber 5200
  end.

Section Boot.

Variable number_to_string : float -> string.

(** [PORT.toString()]: the string itself, or the number printed. *)
Definition PORT_text (b : boot_env) : string :=
  match PORT_of b with
  | JString s => s
  | JNumber f => number_to_string f
  | _ => ""
  end.

(** The body of the outer [try], up to [app.listen], and its [catch]. *)
Definition start (b : boot_env) (d : disk) : boot :=
  if negb (modules_ok b) then Exited 1 d
  else
    let PORT := PORT_of b in
    if negb (logDir d) && negb (mkdir_ok b) then Exited 1 d
    else
      match port_write b with
      | WriteFailed remains =>
          Exited 1 {| logDir := true; portFile := remains;
                      pidFile := pidFile d; service := service d |}
      | Written =>
          match pid_write b with
          | WriteFailed remains =>
              Exited 1 {| logDir := true; portFile := Some (PORT_text b);
                          pidFile := remains; service := service d |}
          | Written =>
              match appendFileSync (boot_log_ok b)
                      (boot_stamp b ++ " - Starting AI Optimization Service"
                         ++ newline)
                      (service d) with
              | (Ok _, w) =>
                  Listening PORT
                    {| logDir := true; portFile := Some (PORT_text b);
                       pidFile := Some (number_to_string (pid b));
                       service := w |}
              | (Throw, w) =>
                  Exited 1 {| logDir := true; portFile := Some (PORT_text b);
                              pidFile := Some (number_to_string (pid b));
                              service := w |}
              end
          end
      end.

(** The callback of [app.listen]: one more line in the log file; a failed
    append is an exception nobody catches. *)
Definition listening (b : boot_env) : M unit :=
  appendFileSync (listen_log_ok b)
    (listen_stamp b ++ " - AI Service started on port " ++ PORT_text b ++ newline).

End Boot.

(** ** The workflow script *)

Module Workflow.

(** The entry the script puts under the key [AI Service]. *)
Definition ai_service_entry : value :=
  JObject
    [("env", JObject []);
     ("icon", JString "memory");
     ("restartable", JBool true);
     ("restartOnFileChange", JArray [JString "test-ai-service.cjs"]);
     ("startCommand", JArray [JString "node"; JString "test-ai-service.cjs"]);
     ("terminateCommand", JArray [JString "kill-port"; JString "5200"])].

(** [fields[k] = v] on an object: the property keeps its place when it is
    there, and comes last when it is new. *)
Fixpoint set_field (k : string) (v : value) (fields : list (string * value))
  : list (string * value) :=
  match fields with
  | [] => [(k, v)]
  | (k', x) :: rest =>
      if k' =? k then (k, v) :: rest else (k', x) :: set_field k v rest
  end.

(** [config[k] = v] in a script that is not in strict mode: a TypeError on
    null and undefined; on an array a property that is not an element, which
    [JSON.stringify] does not write; nothing at all on a boolean, a number
    or a string. *)
Definition assign (config : value) (k : string) (v : value) : result value :=
  match config with
  | JUndefined | JNull => Throw
  | JObject fields => Ok (JObject (set_field k v fields))
  | _ => Ok config
  end.

(** [JSON.parse (JSON.stringify v)]: what a file holds once [v] is written
    to it.  Besides what [JSON.stringify] leaves out, minus zero is written
    as 0. *)
Fixpoint reparse (v : value) : value :=
  match v with
  | JNumber f =>
      if PrimFloat.is_finite f
      then (if PrimFloat.is_zero f then JNumber 0 else JNumber f)
      else JNull
  | JArray items =>
      JArray ((fix each (l : list value) : list value :=
                 match l with
                 | [] => []
                 | JUndefined :: rest => JNull :: each rest
                 | x :: rest => reparse x :: each rest
                 end) items)
  | JObject fields =>
      JObject ((fix each (l : list (string * value)) : list (string * value) :=
                  match l with
                  | [] => []
                  | (_, JUndefined) :: rest => each rest
                  | (k, x) :: rest => (k, reparse x) :: each rest
                  end) fields)
  | _ => v
  end.

(** The two loops of [reparse], by name. *)
Fixpoint reparse_items (l : list value) : list value :=
  match l with
  | [] => []
  | JUndefined :: rest => JNull :: reparse_items rest
  | x :: rest => reparse x :: reparse_items rest
  end.

Fixpoint reparse_fields (l : list (string * value)) : list (string * value) :=
  match l with
  | [] => []
  | (_, JUndefined) :: rest => reparse_fields rest
  | (k, x) :: rest => (k, reparse x) :: reparse_fields rest
  end.

(** The configuration file: not there, there but unreadable, or there with
    a text, given by what [JSON.parse] makes of it ([None] when it
    throws). *)
Inductive config_file : Type :=
| Absent
| Unreadable
| Holds (parsed : option value).

(** How the [fs.writeFileSync] of the configuration ends: written, or
    thrown with the file left in some state of its own. *)
Inductive config_write : Type :=
| ConfigWritten
| ConfigWriteFailed (remains : config_file).

(** [updateWorkflow]: whether it reports success, and the file after it. *)
Definition updateWorkflow (file : config_file) (outcome : config_write)
  : bool * config_file :=
  let write (config : value) :=
    match outcome with
    | ConfigWritten => (true, Holds (Some (reparse config)))
    | ConfigWriteFailed remains => (false, remains)
    end in
  match file with
  | Unreadable => (false, file)
  | Absent | Holds None =>
      match assign (JObject []) "AI Service" ai_service_entry with
      | Ok config => write config
      | Throw => (false, file)
      end
  | Holds (Some parsed) =>
      match assign parsed "AI Service" ai_service_entry with
      | Ok config => write config
      | Throw => (false, file)
      end
  end.

(** The workflows a file lists: the properties of the object it holds. *)
Definition workflow (file : config_file) (name : string) : option value :=
  match file with
  | Holds (Some (JObject fields)) => own name fields
  | _ => None
  end.

End Workflow.

(** ** More examples *)

(** A request whose last message has an object for content, with a
    [toString] property of its own. *)
Definition unquotable_request : value :=
  JObject [("userId", JNumber 1);
           ("messages",
             JArray [JObject [("role", JString "user");
                              ("content", JObject [("toString", JNumber 1)])]])].

(** A conversation of two messages, and a request with it. *)
Definition two_messages : list value :=
  [JObject [("role", JString "system"); ("content", JString "Be brief.")];
   JObject [("role", JString "user"); ("content", JString "How much water?")]].

Definition conversation_request (messages : list value) : value :=
  JObject [("userId", JNumber 1); ("messages", JArray messages);
           ("forceFresh", JBool true)].

(** A start with no port in the environment, on a disk with nothing yet. *)
Definition example_boot : boot_env :=
  {| AI_SERVICE_PORT := None;
     pid := 4242;
     modules_ok := true;
     mkdir_ok := true;
     port_write := Written;
     pid_write := Written;
     boot_stamp := "2025-01-01T00:00:00.000Z";
     boot_log_ok := true;
     listen_stamp := "2025-01-01T00:00:00.050Z";
     listen_log_ok := true |}.

Definition empty_disk : disk :=
  {| logDir := false; portFile := None; pidFile := None;
     service := fresh_world |}.

(** A configuration file that lists one workflow. *)
Definition one_workflow : list (string * value) :=
  [("Start application",
     JObject [("startCommand", JArray [JString "npm"; JString "run"; JString "dev"])])].

(** * Properties *)

(** ** Values *)

Lemma passes_validation_spec (reqBody : value) :
  passes_validation reqBody = true <->
  truthy (get reqBody "userId") = true /\ isArray (get reqBody "messages") = true.
Proof.
  unfold passes_validation.
  destruct (truthy (get reqBody "userId")); cbn.
  - destruct (get reqBody "messages"); cbn; rewrite ?orb_true_r; cbn;
      split; try (intros [_ H]); try intros H; try discriminate H; auto.
  - split; [ intros H | intros [H _] ]; discriminate H.
Qed.

Lemma nullish_fails_validation (reqBody : value) :
  nullish reqBody = true -> passes_validation reqBody = false.
Proof. destruct reqBody; cbn; intros H; try discriminate H; reflexivity. Qed.

Lemma has_get (reqBody : value) (k : string) :
  has reqBody k = false -> get reqBody k = JUndefined.
Proof.
  destruct reqBody; cbn; try reflexivity.
  destruct (own k fields); [ discriminate | reflexivity ].
Qed.

(** ToString throws exactly on the values that are not printable. *)
Lemma ToString_printable (number_to_string : float -> string) (v : value) :
  match ToString number_to_string v with
  | Ok _ => printable v = true
  | Throw => printable v = false
  end.
Proof.
  induction v as [ | | b | f | s | items IH | fields _ ] using value_induction;
    try reflexivity.
  - destruct b; reflexivity.
  - cbn [ToString printable].
    induction IH as [ | x rest Hx _ IHrest ]; [ reflexivity | ].
    assert (Hpiece :
      match match x with
            | JUndefined | JNull => Ok ""
            | _ => ToString number_to_string x
            end with
      | Ok _ => printable x = true
      | Throw => printable x = false
      end).
    { destruct x; try exact Hx; reflexivity. }
    destruct rest as [ | y rest ].
    + destruct (match x with
                | JUndefined | JNull => Ok ""
                | _ => ToString number_to_string x
                end); rewrite Hpiece; reflexivity.
    + destruct (match x with
                | JUndefined | JNull => Ok ""
                | _ => ToString number_to_string x
                end); rewrite Hpiece; cbn [rbind andb]; [ | reflexivity ].
      match goal with
      | H : match ?j with Ok _ => _ | Throw => _ end
        |- match rbind ?j' _ with Ok _ => _ | Throw => _ end =>
          change j' with j; destruct j; exact H
      end.
  - cbn. destruct (own "toString" fields); reflexivity.
Qed.

Lemma printable_ToString (number_to_string : float -> string) (v : value) :
  printable v = true -> exists s, ToString number_to_string v = Ok s.
Proof.
  intros H. pose proof (ToString_printable number_to_string v) as Hv.
  destruct (ToString number_to_string v) as [s|]; [ now exists s | congruence ].
Qed.

Lemma ToString_Ok_printable (number_to_string : float -> string) (v : value) (s : string) :
  ToString number_to_string v = Ok s -> printable v = true.
Proof.
  intros H. pose proof (ToString_printable number_to_string v) as Hv.
  now rewrite H in Hv.
Qed.

(** ** What a successful response carries *)

Section Generated.

Variables (e : env) (reqBody : value) (quoted : string).

Lemma generated_response :
  at_path (wire (generated e reqBody quoted)) ["response"] =
  Some (JString ("This is a test response to: " ++ dquote ++ quoted ++ dquote)).
Proof. reflexivity. Qed.

Lemma generated_complexity :
  at_path (wire (generated e reqBody quoted)) ["metadata"; "complexity"] =
  sent (get reqBody "complexity").
Proof.
  unfold generated.
  destruct (get reqBody "complexity"); reflexivity.
Qed.

Lemma generated_processingTime :
  at_path (wire (generated e reqBody quoted)) ["metadata"; "processingTime"] =
  Some (wire (JNumber (PrimFloat.sub (t_end e) (t_start e)))).
Proof.
  unfold generated.
  destruct (get reqBody "complexity"); reflexivity.
Qed.

Lemma generated_modelUsed :
  at_path (wire (generated e reqBody quoted)) ["metadata"; "modelUsed"] =
  Some (JString (if strict_eq_string (get reqBody "complexity") "high"
                 then "gpt-4o" else "gpt-3.5-turbo")).
Proof.
  unfold generated.
  destruct (get reqBody "complexity"); reflexivity.
Qed.

Lemma generated_cached :
  at_path (wire (generated e reqBody quoted)) ["metadata"; "cached"] =
  Some (JBool (negb (truthy (forceFresh_of reqBody)))).
Proof.
  unfold generated.
  destruct (get reqBody "complexity"); reflexivity.
Qed.

Lemma generated_not_queued :
  at_path (wire (generated e reqBody quoted)) ["queued"] = None.
Proof. reflexivity. Qed.

End Generated.

(** ** POST /generate, path by path *)

Section Handlers.

Variable number_to_string : float -> string.

Local Abbreviation to_text := (ToString number_to_string).
Local Abbreviation handle := (generate number_to_string).

(** The line /generate appends to the log file. *)
Local Abbreviation log_line e shownUser shownComplexity :=
  (log_stamp e ++ " - Generated response for user " ++ shownUser
     ++ ", complexity: " ++ shownComplexity
     ++ ", time: " ++ number_to_string (PrimFloat.sub (t_end e) (t_start e))
     ++ "ms" ++ newline).

Lemma generate_nullish (e : env) (reqBody : value) (w : world) :
  nullish reqBody = true ->
  handle e reqBody w = (res_json 500 generation_failed, w).
Proof. destruct reqBody; intros H; try discriminate H; reflexivity. Qed.

Lemma generate_rejected (e : env) (reqBody : value) (w : world) :
  nullish reqBody = false ->
  passes_validation reqBody = false ->
  handle e reqBody w = (res_json 400 invalid_request, w).
Proof.
  intros Hn Hv.
  unfold generate, try_catch, bind, lift.
  assert (Hd : destructure reqBody = Ok reqBody)
    by (destruct reqBody; try discriminate Hn; reflexivity).
  rewrite Hd. unfold passes_validation in Hv.
  apply negb_false_iff in Hv. rewrite Hv. reflexivity.
Qed.

(** The path through the handler once validation has passed. *)
Lemma generate_validated (e : env) (reqBody : value) (w : world) :
  passes_validation reqBody = true ->
  handle e reqBody w =
  match to_text (get reqBody "complexity"),
        to_text (get reqBody "priority"),
        to_text (get reqBody "userId") with
  | Ok key, Ok _, Ok shownUser =>
      let w1 :=
        if truthy (forceFresh_of reqBody)
        then {| logFile := logFile w;
                timers := timers w ++ [processingTime_ms (processingTimes_at key)] |}
        else w in
      if log_write_ok e
      then
        let w2 := {| logFile := logFile w1 ++ [log_line e shownUser key];
                     timers := timers w1 |} in
        match to_text (quoted_of reqBody) with
        | Ok quoted => (res_json 200 (generated e reqBody quoted), w2)
        | Throw => (res_json 500 generation_failed, w2)
        end
      else (res_json 500 generation_failed, w1)
  | _, _, _ =>
      (res_json 500 generation_failed,
       match to_text (get reqBody "complexity") with
       | Ok key =>
           if truthy (forceFresh_of reqBody)
           then {| logFile := logFile w;
                   timers := timers w ++ [processingTime_ms (processingTimes_at key)] |}
           else w
       | Throw => w
       end)
  end%list.
Proof.
  intros Hv.
  unfold generate, try_catch, bind, lift.
  assert (Hd : destructure reqBody = Ok reqBody).
  { destruct reqBody; try reflexivity; discriminate Hv. }
  rewrite Hd. unfold passes_validation in Hv.
  apply negb_true_iff in Hv. rewrite Hv.
  fold (forceFresh_of reqBody). fold (quoted_of reqBody). unfold generated.
  destruct (to_text (get reqBody "complexity")) as [key|]; [ | reflexivity ].
  destruct (truthy (forceFresh_of reqBody));
    unfold await_timeout, ret, appendFileSync; cbn [logFile timers];
    destruct (to_text (get reqBody "priority")); try reflexivity;
    destruct (to_text (get reqBody "userId")); try reflexivity;
    destruct (log_write_ok e); try reflexivity;
    destruct (to_text (quoted_of reqBody)); reflexivity.
Qed.

(** Validation passed, every interpolated value converts, the log line is
    written: the handler answers 200. *)
Lemma generate_accepted (e : env) (reqBody : value) (w : world) :
  passes_validation reqBody = true ->
  printable (get reqBody "userId") = true ->
  printable (get reqBody "complexity") = true ->
  printable (get reqBody "priority") = true ->
  printable (quoted_of reqBody) = true ->
  log_write_ok e = true ->
  exists quoted,
    to_text (quoted_of reqBody) = Ok quoted /\
    fst (handle e reqBody w) = res_json 200 (generated e reqBody quoted).
Proof.
  intros Hv Hu Hc Hp Hq Hlog.
  rewrite (generate_validated e reqBody w Hv).
  destruct (printable_ToString number_to_string _ Hu) as [u ->].
  destruct (printable_ToString number_to_string _ Hc) as [c ->].
  destruct (printable_ToString number_to_string _ Hp) as [t ->].
  destruct (printable_ToString number_to_string _ Hq) as [q Eq].
  exists q. rewrite Hlog, Eq. split; reflexivity.
Qed.

(** The three answers of the handler, and when each is given. *)
Lemma generate_outcome (e : env) (reqBody : value) (w : world) :
  (nullish reqBody = false /\ passes_validation reqBody = false /\
   fst (handle e reqBody w) = res_json 400 invalid_request) \/
  ((nullish reqBody = true \/ passes_validation reqBody = true) /\
   fst (handle e reqBody w) = res_json 500 generation_failed) \/
  (passes_validation reqBody = true /\
   exists quoted,
     to_text (quoted_of reqBody) = Ok quoted /\
     fst (handle e reqBody w) = res_json 200 (generated e reqBody quoted)).
Proof.
  destruct (nullish reqBody) eqn:Hn.
  { right; left. rewrite (generate_nullish e reqBody w Hn). auto. }
  destruct (passes_validation reqBody) eqn:Hv.
  2: { left. rewrite (generate_rejected e reqBody w Hn Hv). auto. }
  right. rewrite (generate_validated e reqBody w Hv).
  destruct (to_text (get reqBody "complexity")); [ | left; auto ].
  destruct (to_text (get reqBody "priority")); [ | left; auto ].
  destruct (to_text (get reqBody "userId")); [ | left; auto ].
  cbv zeta.
  destruct (log_write_ok e); [ | left; auto ].
  destruct (to_text (quoted_of reqBody)) as [q|]; [ | left; auto ].
  right. split; [ reflexivity | ]. exists q. auto.
Qed.

(** A 200 answer, read backwards. *)
Lemma generate_200 (e : env) (reqBody : value) (w : world) :
  status (fst (handle e reqBody w)) = 200 ->
  passes_validation reqBody = true /\
  exists quoted,
    to_text (quoted_of reqBody) = Ok quoted /\
    fst (handle e reqBody w) = res_json 200 (generated e reqBody quoted).
Proof.
  intros H.
  destruct (generate_outcome e reqBody w)
    as [(_ & _ & E) | [(_ & E) | (Hv & q & Hq & E)]].
  - rewrite E in H. discriminate H.
  - rewrite E in H. discriminate H.
  - split; [ exact Hv | ]. exists q. auto.
Qed.

(** The answer does not depend on the log file or the timers so far. *)
Lemma generate_answer_any_world (e : env) (reqBody : value) (w w' : world) :
  fst (handle e reqBody w) = fst (handle e reqBody w').
Proof.
  destruct (nullish reqBody) eqn:Hn.
  { now rewrite !generate_nullish. }
  destruct (passes_validation reqBody) eqn:Hv.
  2: { now rewrite !generate_rejected. }
  rewrite !generate_validated by exact Hv.
  destruct (to_text (get reqBody "complexity")); [ | reflexivity ].
  destruct (to_text (get reqBody "priority")); [ | reflexivity ].
  destruct (to_text (get reqBody "userId")); [ | reflexivity ].
  cbv zeta.
  destruct (log_write_ok e); [ | reflexivity ].
  destruct (to_text (quoted_of reqBody)); reflexivity.
Qed.

(** ** The routes *)

Lemma serve_generate (p : process_env) (e : env) (reqBody : value) (w : world) :
  serve number_to_string p e (POST_generate reqBody) w =
  handle e reqBody (snd (request_logging e "POST" "/generate" w)).
Proof.
  unfold serve. destruct (request_logging e "POST" "/generate" w). reflexivity.
Qed.

Lemma serve_stats (p : process_env) (e : env) (w : world) :
  fst (serve number_to_string p e GET_stats w) = fst (stats e w).
Proof.
  unfold serve. destruct (request_logging e "GET" "/stats" w). reflexivity.
Qed.

Lemma serve_health (p : process_env) (e : env) (w : world) :
  fst (serve number_to_string p e GET_health w) = fst (health p e w).
Proof.
  unfold serve. destruct (request_logging e "GET" "/health" w). reflexivity.
Qed.

(** Every request of a sequence is answered, by [serve] in the world the
    requests before it have left. *)
Lemma serve_all_nth (p : process_env) (reqs : list (request * env)) :
  forall (w : world) (i : nat) (r : request) (e : env),
    nth_error reqs i = Some (r, e) ->
    exists w0,
      nth_error (fst (serve_all number_to_string p reqs w)) i =
      Some (fst (serve number_to_string p e r w0)).
Proof.
  induction reqs as [ | [r0 e0] rest IH ]; intros w i r e Hi.
  - destruct i; discriminate Hi.
  - cbn [serve_all].
    destruct (serve number_to_string p e0 r0 w) as [answer w1] eqn:E1.
    destruct (serve_all number_to_string p rest w1) as [answers w2] eqn:E2.
    destruct i as [ | i ].
    + injection Hi as -> ->. exists w. now rewrite E1.
    + cbn in Hi. destruct (IH w1 i r e Hi) as [w0 H0].
      exists w0. rewrite E2 in H0. exact H0.
Qed.

Lemma serve_all_length (p : process_env) (reqs : list (request * env)) :
  forall w : world,
    length (fst (serve_all number_to_string p reqs w)) = length reqs.
Proof.
  induction reqs as [ | [r0 e0] rest IH ]; intros w; [ reflexivity | ].
  cbn [serve_all].
  destruct (serve number_to_string p e0 r0 w) as [answer w1].
  specialize (IH w1).
  destruct (serve_all number_to_string p rest w1) as [answers w2].
  cbn in *. now rewrite IH.
Qed.

(** The model reported is the capable one exactly for the tier [high]. *)
Lemma generate_modelUsed (e : env) (reqBody : value) (w : world) :
  status (fst (handle e reqBody w)) = 200 ->
  at_path (body (fst (handle e reqBody w))) ["metadata"; "modelUsed"] =
  Some (JString (if strict_eq_string (get reqBody "complexity") "high"
                 then capable_model else cheap_model)).
Proof.
  intros H. destruct (generate_200 e reqBody w H) as (_ & q & _ & E).
  rewrite E. apply generated_modelUsed.
Qed.

(** The priority of a request has no part in the answer: two bodies that
    agree on the other fields the handler reads are answered alike. *)
Lemma generate_ignores_priority (e : env) (body1 body2 : value) (w : world) :
  nullish body1 = nullish body2 ->
  get body1 "userId" = get body2 "userId" ->
  get body1 "messages" = get body2 "messages" ->
  get body1 "complexity" = get body2 "complexity" ->
  get body1 "forceFresh" = get body2 "forceFresh" ->
  printable (get body1 "priority") = true ->
  printable (get body2 "priority") = true ->
  fst (handle e body1 w) = fst (handle e body2 w).
Proof.
  intros Hn Hu Hm Hc Hf P1 P2.
  destruct (nullish body1) eqn:Hn1.
  { now rewrite !generate_nullish. }
  assert (Hv : passes_validation body1 = passes_validation body2)
    by (unfold passes_validation; now rewrite Hu, Hm).
  destruct (passes_validation body1) eqn:Hv1.
  2: { now rewrite !generate_rejected. }
  rewrite !generate_validated by auto.
  destruct (printable_ToString number_to_string _ P1) as [t1 ->].
  destruct (printable_ToString number_to_string _ P2) as [t2 ->].
  unfold quoted_of, generated, forceFresh_of.
  rewrite Hu, Hm, Hc, Hf.
  destruct (to_text (get body2 "complexity")); [ | reflexivity ].
  destruct (to_text (get body2 "userId")); [ | reflexivity ].
  cbv zeta.
  destruct (log_write_ok e); [ | reflexivity ].
  match goal with
  | |- context [to_text ?v] => destruct (to_text v); reflexivity
  end.
Qed.

(** ** The claims about the routes *)

(** C1 (as amended): POST /generate answers 400 exactly when the body is an
    object or other non-null value whose userId is falsy (absent, null,
    false, 0, NaN or the empty string) or whose messages is not an array.
    For every other body whose userId, complexity, priority and quoted
    content convert to strings, and when the log line can be written, the
    answer is 200 and carries response and, under metadata, processingTime,
    modelUsed and cached, and complexity exactly when the request gave
    one. *)
Theorem generate_validation
  (p : process_env) (e : env) (reqBody : value) (w : world) :
  (status (fst (serve number_to_string p e (POST_generate reqBody) w)) = 400 <->
     nullish reqBody = false /\
     (truthy (get reqBody "userId") = false \/
      isArray (get reqBody "messages") = false)) /\
  (truthy (get reqBody "userId") = true ->
   isArray (get reqBody "messages") = true ->
   printable (get reqBody "userId") = true ->
   printable (get reqBody "complexity") = true ->
   printable (get reqBody "priority") = true ->
   printable (quoted_of reqBody) = true ->
   log_write_ok e = true ->
   let r := fst (serve number_to_string p e (POST_generate reqBody) w) in
   status r = 200 /\
   (exists quoted,
      to_text (quoted_of reqBody) = Ok quoted /\
      at_path (body r) ["response"] =
      Some (JString ("This is a test response to: " ++ dquote ++ quoted ++ dquote))) /\
   at_path (body r) ["metadata"; "complexity"] = sent (get reqBody "complexity") /\
   at_path (body r) ["metadata"; "processingTime"] =
     Some (wire (JNumber (PrimFloat.sub (t_end e) (t_start e)))) /\
   at_path (body r) ["metadata"; "modelUsed"] =
     Some (JString (if strict_eq_string (get reqBody "complexity") "high"
                    then "gpt-4o" else "gpt-3.5-turbo")) /\
   at_path (body r) ["metadata"; "cached"] =
     Some (JBool (negb (truthy (forceFresh_of reqBody))))).
Proof.
  rewrite serve_generate.
  set (w1 := snd (request_logging e "POST" "/generate" w)).
  split.
  - destruct (generate_outcome e reqBody w1)
      as [(Hn & Hv & E) | [(Hc & E) | (Hv & q & _ & E)]]; rewrite E; cbn [status res_json].
    + split; [ intros _ | reflexivity ].
      split; [ exact Hn | ].
      destruct (truthy (get reqBody "userId")) eqn:Hu; [ right | now left ].
      destruct (isArray (get reqBody "messages")) eqn:Ha; [ | reflexivity ].
      assert (passes_validation reqBody = true)
        by (apply passes_validation_spec; auto).
      congruence.
    + split; [ discriminate | ].
      intros [Hn Hbad]. exfalso.
      destruct Hc as [Hc | Hc]; [ congruence | ].
      apply passes_validation_spec in Hc. destruct Hc, Hbad; congruence.
    + split; [ discriminate | ].
      intros [_ Hbad]. exfalso.
      apply passes_validation_spec in Hv. destruct Hv, Hbad; congruence.
  - intros Hu Ha Pu Pc Pp Pq Hlog r.
    assert (Hv : passes_validation reqBody = true)
      by (apply passes_validation_spec; auto).
    destruct (generate_accepted e reqBody w1 Hv Pu Pc Pp Pq Hlog) as (q & Hq & E).
    subst r. rewrite E. cbn [status body res_json].
    split; [ reflexivity | ].
    split; [ exists q; split; [ exact Hq | apply generated_response ] | ].
    split; [ apply generated_complexity | ].
    split; [ apply generated_processingTime | ].
    split; [ apply generated_modelUsed | apply generated_cached ].
Qed.

(** C8: a POST /generate whose userId is present but falsy is answered
    400 with the validation error. *)
Theorem generate_rejects_falsy_userId
  (p : process_env) (e : env) (reqBody : value) (w : world) :
  has reqBody "userId" = true ->
  truthy (get reqBody "userId") = false ->
  status (fst (serve number_to_string p e (POST_generate reqBody) w)) = 400 /\
  body (fst (serve number_to_string p e (POST_generate reqBody) w)) =
    JObject
      [("error", JString "Invalid request. Required fields: userId, messages (array)")].
Proof.
  intros Hhas Hfalsy.
  rewrite serve_generate, generate_rejected.
  - split; reflexivity.
  - destruct reqBody; try discriminate Hhas; reflexivity.
  - unfold passes_validation. now rewrite Hfalsy.
Qed.

(** C9: in every 200 answer of /generate, metadata.cached is the negation
    of the request's forceFresh (false when absent), whatever came before:
    the answer is the same in every state of the server, whose state holds
    no cache, and a request with forceFresh false is reported cached. *)
Theorem cached_is_not_forceFresh
  (p : process_env) (e : env) (reqBody : value) (w : world) :
  status (fst (serve number_to_string p e (POST_generate reqBody) w)) = 200 ->
  at_path (body (fst (serve number_to_string p e (POST_generate reqBody) w)))
    ["metadata"; "cached"] =
  Some (JBool (negb (truthy (forceFresh_of reqBody)))) /\
  (forceFresh_of reqBody = JBool false ->
   at_path (body (fst (serve number_to_string p e (POST_generate reqBody) fresh_world)))
     ["metadata"; "cached"] = Some (JBool true)) /\
  (forall w' : world,
     fst (serve number_to_string p e (POST_generate reqBody) w') =
     fst (serve number_to_string p e (POST_generate reqBody) w)).
Proof.
  intros H200.
  assert (Hany : forall w' : world,
    fst (serve number_to_string p e (POST_generate reqBody) w') =
    fst (serve number_to_string p e (POST_generate reqBody) w)).
  { intros w'. rewrite !serve_generate. apply generate_answer_any_world. }
  assert (Hc :
    at_path (body (fst (serve number_to_string p e (POST_generate reqBody) w)))
      ["metadata"; "cached"] =
    Some (JBool (negb (truthy (forceFresh_of reqBody))))).
  { rewrite serve_generate in *.
    destruct (generate_200 _ _ _ H200) as (_ & q & _ & E).
    rewrite E. apply generated_cached. }
  split; [ exact Hc | ].
  split; [ | exact Hany ].
  intros Hff. rewrite Hany, Hc, Hff. reflexivity.
Qed.

(** C7: two /generate requests with the same messages and the same
    complexity field report the same complexity in their metadata, in any
    two states of the server and with any two readings of the clock and of
    the log file: what is reported is the request's own complexity field. *)
Theorem reported_complexity_deterministic
  (p : process_env) (e1 e2 : env) (body1 body2 : value) (w1 w2 : world) :
  get body1 "messages" = get body2 "messages" ->
  get body1 "complexity" = get body2 "complexity" ->
  status (fst (serve number_to_string p e1 (POST_generate body1) w1)) = 200 ->
  status (fst (serve number_to_string p e2 (POST_generate body2) w2)) = 200 ->
  at_path (body (fst (serve number_to_string p e1 (POST_generate body1) w1)))
    ["metadata"; "complexity"] = sent (get body1 "complexity") /\
  at_path (body (fst (serve number_to_string p e1 (POST_generate body1) w1)))
    ["metadata"; "complexity"] =
  at_path (body (fst (serve number_to_string p e2 (POST_generate body2) w2)))
    ["metadata"; "complexity"].
Proof.
  intros _ Hc H1 H2.
  rewrite !serve_generate in *.
  destruct (generate_200 _ _ _ H1) as (_ & q1 & _ & E1).
  destruct (generate_200 _ _ _ H2) as (_ & q2 & _ & E2).
  rewrite E1, E2. cbn [body res_json].
  rewrite !generated_complexity. rewrite Hc. auto.
Qed.

(** C2: GET /health says degraded exactly when neither provider key is
    set, healthy exactly when at least one is, and reports under services
    the availability of each provider. *)
Theorem health_status_by_availability
  (p : process_env) (e : env) (w : world) :
  (at_path (body (fst (serve number_to_string p e GET_health w))) ["status"] =
     Some (JString "degraded") <->
   env_set (OPENAI_API_KEY p) = false /\ env_set (GEMINI_API_KEY p) = false) /\
  (at_path (body (fst (serve number_to_string p e GET_health w))) ["status"] =
     Some (JString "healthy") <->
   env_set (OPENAI_API_KEY p) = true \/ env_set (GEMINI_API_KEY p) = true) /\
  at_path (body (fst (serve number_to_string p e GET_health w)))
    ["services"; "openai"] =
    Some (JString (if env_set (OPENAI_API_KEY p) then "available" else "unavailable")) /\
  at_path (body (fst (serve number_to_string p e GET_health w)))
    ["services"; "gemini"] =
    Some (JString (if env_set (GEMINI_API_KEY p) then "available" else "unavailable")) /\
  status (fst (serve number_to_string p e GET_health w)) =
    (if env_set (OPENAI_API_KEY p) || env_set (GEMINI_API_KEY p) then 200 else 503).
Proof.
  rewrite serve_health. unfold health. cbn [fst].
  destruct (env_set (OPENAI_API_KEY p)), (env_set (GEMINI_API_KEY p));
    cbn; repeat split; auto; try discriminate;
    try (intros [H _]; discriminate H);
    try (intros [_ H]; discriminate H);
    try (intros [H | H]; discriminate H).
Qed.

(** ** Sequences of requests *)

(** C5: of two identical /generate requests with forceFresh false sent one
    after the other, the second is answered with metadata.cached true. *)
Theorem second_identical_request_cached
  (p : process_env) (e1 e2 : env) (reqBody : value) (w : world) :
  truthy (get reqBody "userId") = true ->
  isArray (get reqBody "messages") = true ->
  printable (get reqBody "userId") = true ->
  printable (get reqBody "complexity") = true ->
  printable (get reqBody "priority") = true ->
  printable (quoted_of reqBody) = true ->
  log_write_ok e2 = true ->
  forceFresh_of reqBody = JBool false ->
  exists (first second : response),
    fst (serve_all number_to_string p
           [(POST_generate reqBody, e1); (POST_generate reqBody, e2)] w) =
      [first; second] /\
    status second = 200 /\
    at_path (body second) ["metadata"; "cached"] = Some (JBool true).
Proof.
  intros Hu Ha Pu Pc Pp Pq Hlog Hff.
  assert (Hv : passes_validation reqBody = true)
    by (apply passes_validation_spec; auto).
  cbn [serve_all].
  destruct (serve number_to_string p e1 (POST_generate reqBody) w) as [first w1].
  destruct (serve number_to_string p e2 (POST_generate reqBody) w1)
    as [second w2] eqn:E2.
  exists first, second. split; [ reflexivity | ].
  assert (Es : second =
    fst (serve number_to_string p e2 (POST_generate reqBody) w1))
    by now rewrite E2.
  rewrite serve_generate in Es.
  destruct (generate_accepted e2 reqBody
              (snd (request_logging e2 "POST" "/generate" w1))
              Hv Pu Pc Pp Pq Hlog) as (q & _ & E).
  rewrite E in Es. subst second. cbn [status body res_json].
  split; [ reflexivity | ].
  rewrite generated_cached, Hff. reflexivity.
Qed.

(** The three answers of /generate carry no queued field. *)
Lemma generate_not_queued (e : env) (reqBody : value) (w : world) :
  at_path (body (fst (handle e reqBody w))) ["queued"] = None.
Proof.
  destruct (generate_outcome e reqBody w)
    as [(_ & _ & E) | [(_ & E) | (_ & q & _ & E)]]; rewrite E; reflexivity.
Qed.

(** C6: in every sequence of requests, every GET /stats reports the
    critical queue size 0, and no /generate request of critical priority
    is answered with a queued field. *)
Theorem critical_never_queued
  (p : process_env) (reqs : list (request * env)) (w : world)
  (i : nat) (r : request) (e : env) :
  nth_error reqs i = Some (r, e) ->
  exists answer,
    nth_error (fst (serve_all number_to_string p reqs w)) i = Some answer /\
    (r = GET_stats ->
     at_path (body answer) ["queueSizes"; "critical"] = Some (JNumber 0)) /\
    (forall reqBody,
       r = POST_generate reqBody ->
       get reqBody "priority" = JString "critical" ->
       at_path (body answer) ["queued"] = None /\
       at_path (body answer) ["queued"] <> Some (JBool true)).
Proof.
  intros Hi.
  destruct (serve_all_nth p reqs w i r e Hi) as [w0 H0].
  eexists. split; [ exact H0 | ]. split.
  - intros ->. rewrite serve_stats. reflexivity.
  - intros reqBody -> _. rewrite serve_generate, generate_not_queued.
    split; [ reflexivity | discriminate ].
Qed.

(** C10: in every sequence of requests, every GET /stats is answered 200
    with the four queue sizes 0, cache hits 25, misses 10 and size 35,
    activePrompts 0 and isProcessingBatch false. *)
Theorem stats_fixed
  (p : process_env) (reqs : list (request * env)) (w : world)
  (i : nat) (e : env) :
  nth_error reqs i = Some (GET_stats, e) ->
  exists answer,
    nth_error (fst (serve_all number_to_string p reqs w)) i = Some answer /\
    status answer = 200 /\
    at_path (body answer) ["queueSizes"; "critical"] = Some (JNumber 0) /\
    at_path (body answer) ["queueSizes"; "high"] = Some (JNumber 0) /\
    at_path (body answer) ["queueSizes"; "normal"] = Some (JNumber 0) /\
    at_path (body answer) ["queueSizes"; "low"] = Some (JNumber 0) /\
    at_path (body answer) ["cache"; "hits"] = Some (JNumber 25) /\
    at_path (body answer) ["cache"; "misses"] = Some (JNumber 10) /\
    at_path (body answer) ["cache"; "size"] = Some (JNumber 35) /\
    at_path (body answer) ["activePrompts"] = Some (JNumber 0) /\
    at_path (body answer) ["isProcessingBatch"] = Some (JBool false).
Proof.
  intros Hi.
  destruct (serve_all_nth p reqs w i GET_stats e Hi) as [w0 H0].
  eexists. split; [ exact H0 | ].
  rewrite serve_stats. repeat split; reflexivity.
Qed.

End Handlers.

(** ** The routes on the example requests *)

Lemma generate_validation_witness :
  status (fst (serve integral_number_to_string example_process example_env
                 (POST_generate (snack_request "low" "normal" false))
                 fresh_world)) = 200.
Proof.
  exact (proj1 (proj2 (generate_validation integral_number_to_string
                         example_process example_env
                         (snack_request "low" "normal" false) fresh_world)
                  eq_refl eq_refl eq_refl eq_refl eq_refl eq_refl eq_refl)).
Defined.

(** C1 (as stated) fails: a body that carries both userId and messages,
    messages being an array, is answered 400 when the userId is 0. *)
Lemma generate_400_with_both_fields :
  has user_zero_request "userId" = true /\
  has user_zero_request "messages" = true /\
  isArray (get user_zero_request "messages") = true /\
  status (fst (serve integral_number_to_string example_process example_env
                 (POST_generate user_zero_request) fresh_world)) = 400.
Proof. repeat split; reflexivity. Qed.

(** A request that gives no complexity is answered without one. *)
Lemma generate_without_complexity :
  let answer :=
    fst (serve integral_number_to_string example_process example_env
           (POST_generate (JObject [("userId", JNumber 1);
                                    ("messages", snack_messages)]))
           fresh_world) in
  status answer = 200 /\
  at_path (body answer) ["metadata"; "complexity"] = None /\
  at_path (body answer) ["metadata"; "cached"] = Some (JBool true).
Proof. repeat split; reflexivity. Qed.

Lemma generate_rejects_falsy_userId_witness :
  status (fst (serve integral_number_to_string example_process example_env
                 (POST_generate (JObject [("userId", JString "");
                                          ("messages", snack_messages)]))
                 fresh_world)) = 400.
Proof.
  exact (proj1 (generate_rejects_falsy_userId integral_number_to_string
                  example_process example_env
                  (JObject [("userId", JString ""); ("messages", snack_messages)])
                  fresh_world eq_refl eq_refl)).
Defined.

Lemma cached_is_not_forceFresh_witness :
  at_path
    (body (fst (serve integral_number_to_string example_process example_env
                  (POST_generate (snack_request "medium" "normal" true))
                  fresh_world)))
    ["metadata"; "cached"] = Some (JBool false).
Proof.
  exact (proj1 (cached_is_not_forceFresh integral_number_to_string
                  example_process example_env
                  (snack_request "medium" "normal" true) fresh_world eq_refl)).
Defined.

Lemma reported_complexity_deterministic_witness :
  at_path
    (body (fst (serve integral_number_to_string example_process example_env
                  (POST_generate (snack_request "high" "low" true))
                  fresh_world)))
    ["metadata"; "complexity"] =
  at_path
    (body (fst (serve integral_number_to_string example_process example_env
                  (POST_generate (snack_request "high" "critical" false))
                  {| logFile := ["earlier"]; timers := [500] |})))
    ["metadata"; "complexity"].
Proof.
  exact (proj2 (reported_complexity_deterministic integral_number_to_string
                  example_process example_env example_env
                  (snack_request "high" "low" true)
                  (snack_request "high" "critical" false)
                  fresh_world {| logFile := ["earlier"]; timers := [500] |}
                  eq_refl eq_refl eq_refl eq_refl)).
Defined.

Lemma second_identical_request_cached_witness :
  exists first second : response,
    fst (serve_all integral_number_to_string example_process
           [(POST_generate (snack_request "low" "normal" false), example_env);
            (POST_generate (snack_request "low" "normal" false), example_env)]
           fresh_world) = [first; second] /\
    status second = 200 /\
    at_path (body second) ["metadata"; "cached"] = Some (JBool true).
Proof.
  exact (second_identical_request_cached integral_number_to_string
           example_process example_env example_env
           (snack_request "low" "normal" false) fresh_world
           eq_refl eq_refl eq_refl eq_refl eq_refl eq_refl eq_refl eq_refl).
Defined.

Lemma critical_never_queued_witness :
  exists answer,
    nth_error
      (fst (serve_all integral_number_to_string example_process
              [(POST_generate (snack_request "low" "critical" true), example_env);
               (GET_stats, example_env)]
              fresh_world)) 0 = Some answer /\
    at_path (body answer) ["queued"] = None.
Proof.
  destruct (critical_never_queued integral_number_to_string example_process
              [(POST_generate (snack_request "low" "critical" true), example_env);
               (GET_stats, example_env)]
              fresh_world 0 (POST_generate (snack_request "low" "critical" true))
              example_env eq_refl) as (answer & Hnth & _ & Hq).
  exists answer. split; [ exact Hnth | ].
  exact (proj1 (Hq (snack_request "low" "critical" true) eq_refl eq_refl)).
Defined.

Lemma stats_fixed_witness :
  exists answer,
    nth_error
      (fst (serve_all integral_number_to_string example_process
              [(POST_generate (snack_request "low" "low" true), example_env);
               (GET_stats, example_env)]
              fresh_world)) 1 = Some answer /\
    at_path (body answer) ["cache"; "hits"] = Some (JNumber 25).
Proof.
  destruct (stats_fixed integral_number_to_string example_process
              [(POST_generate (snack_request "low" "low" true), example_env);
               (GET_stats, example_env)]
              fresh_world 1 example_env eq_refl)
    as (answer & Hnth & _ & _ & _ & _ & _ & Hhits & _).
  exists answer. split; [ exact Hnth | exact Hhits ].
Defined.

(** C3: a very_high request is answered with the tier in its metadata and
    with the cheap model, the model a low request gets, while a high
    request gets the capable one. *)
Theorem very_high_reports_cheap_model :
  let answer tier :=
    fst (serve integral_number_to_string example_process example_env
           (POST_generate (snack_request tier "normal" true)) fresh_world) in
  status (answer "very_high") = 200 /\
  at_path (body (answer "very_high")) ["metadata"; "complexity"] =
    Some (JString "very_high") /\
  at_path (body (answer "very_high")) ["metadata"; "modelUsed"] =
    Some (JString cheap_model) /\
  at_path (body (answer "low")) ["metadata"; "modelUsed"] =
    Some (JString cheap_model) /\
  at_path (body (answer "high")) ["metadata"; "modelUsed"] =
    Some (JString capable_model).
Proof. repeat split; reflexivity. Qed.

(** ** The batch queue *)

Module BatchQueueFacts.

Import BatchQueue.

Local Open Scope nat_scope.
Local Open Scope list_scope.

Lemma firstn_then_skipn {A : Type} (a b : nat) (l : list A) :
  firstn a l ++ firstn b (skipn a l) = firstn (a + b) l.
Proof.
  revert l. induction a as [ | a IH ]; intros l; [ reflexivity | ].
  destruct l as [ | x l ]; cbn.
  - now rewrite firstn_nil.
  - now rewrite IH.
Qed.

Lemma skipn_then_skipn {A : Type} (a b : nat) (l : list A) :
  skipn b (skipn a l) = skipn (a + b) l.
Proof.
  revert l. induction a as [ | a IH ]; intros l; [ reflexivity | ].
  destruct l as [ | x l ]; cbn.
  - now rewrite skipn_nil.
  - apply IH.
Qed.

(** A tick services the first [limit] pending items, in tier order. *)
Lemma flush_serviced (limit : nat) (q : queues) :
  fst (flush limit q) = firstn limit (pending q).
Proof.
  unfold flush, pending. cbn [fst].
  rewrite !firstn_app, !length_firstn.
  replace (limit - Nat.min limit (length (q_high q)))
    with (limit - length (q_high q)) by lia.
  replace (limit - length (q_high q)
           - Nat.min (limit - length (q_high q)) (length (q_normal q)))
    with (limit - length (q_high q) - length (q_normal q)) by lia.
  reflexivity.
Qed.

Lemma flush_pending (limit : nat) (q : queues) :
  pending (snd (flush limit q)) = skipn limit (pending q).
Proof.
  unfold flush, pending. cbn [snd q_high q_normal q_low].
  rewrite !skipn_app, !length_firstn.
  replace (limit - Nat.min limit (length (q_high q)))
    with (limit - length (q_high q)) by lia.
  replace (limit - length (q_high q)
           - Nat.min (limit - length (q_high q)) (length (q_normal q)))
    with (limit - length (q_high q) - length (q_normal q)) by lia.
  reflexivity.
Qed.

Lemma ticks_serviced (limit n : nat) :
  forall q : queues,
    fst (ticks limit n q) = firstn (n * limit) (pending q) /\
    pending (snd (ticks limit n q)) = skipn (n * limit) (pending q).
Proof.
  induction n as [ | n IH ]; intros q; [ split; reflexivity | ].
  cbn [ticks].
  pose proof (flush_serviced limit q) as Hnow.
  pose proof (flush_pending limit q) as Hleft.
  destruct (flush limit q) as [now q1]. cbn [fst snd] in Hnow, Hleft.
  destruct (IH q1) as [Hlater Hrest].
  destruct (ticks limit n q1) as [later q2]. cbn [fst snd] in *.
  rewrite Hlater, Hrest, Hnow, Hleft.
  split.
  - apply firstn_then_skipn.
  - apply skipn_then_skipn.
Qed.

(** Enough ticks service everything that is pending, in tier order, and
    leave the queues empty. *)
Lemma ticks_drain (limit n : nat) (q : queues) :
  1 <= limit ->
  length (pending q) <= n ->
  fst (ticks limit n q) = pending q /\ pending (snd (ticks limit n q)) = [].
Proof.
  intros Hlimit Hn.
  destruct (ticks_serviced limit n q) as [-> ->].
  split; [ apply firstn_all2 | apply skipn_all2 ]; nia.
Qed.

(** Each tier's sequence grows by its own items, in arrival order. *)
Lemma enqueue_all_tiers (items : list QueueItem) :
  forall q : queues,
    q_high (enqueue_all items q) = q_high q ++ filter (of_tier high) items /\
    q_normal (enqueue_all items q) = q_normal q ++ filter (of_tier normal) items /\
    q_low (enqueue_all items q) = q_low q ++ filter (of_tier low) items.
Proof.
  induction items as [ | item rest IH ]; intros q; cbn [enqueue_all filter].
  - now rewrite !app_nil_r.
  - destruct (IH (snd (enqueue item q))) as (-> & -> & ->).
    unfold enqueue, of_tier.
    destruct (priority item); cbn [snd q_high q_normal q_low];
      rewrite <- ?app_assoc; auto.
Qed.

(** From empty queues, the items are serviced tier by tier, each tier in
    arrival order, and the critical ones not at all. *)
Lemma drain_order (limit n : nat) (items : list QueueItem) :
  1 <= limit ->
  length items <= n ->
  fst (ticks limit n (enqueue_all items empty)) =
  filter (of_tier high) items ++ filter (of_tier normal) items
    ++ filter (of_tier low) items.
Proof.
  intros Hlimit Hn.
  assert (Hp : pending (enqueue_all items empty) =
    filter (of_tier high) items ++ filter (of_tier normal) items
      ++ filter (of_tier low) items).
  { unfold pending.
    destruct (enqueue_all_tiers items empty) as (-> & -> & ->). reflexivity. }
  destruct (ticks_drain limit n (enqueue_all items empty) Hlimit) as [Hs _].
  - rewrite Hp, !length_app.
    assert (Hsum :
      length (filter (of_tier high) items)
      + length (filter (of_tier normal) items)
      + length (filter (of_tier low) items) <= length items).
    { clear. induction items as [ | item rest IH ]; [ reflexivity | ].
      cbn [filter]. unfold of_tier in *.
      destruct (priority item); cbn [length]; lia. }
    lia.
  - now rewrite Hs, Hp.
Qed.

(** A critical item is not queued and leaves the queues as they are. *)
Lemma enqueue_critical (item : QueueItem) (q : queues) :
  priority item = critical ->
  enqueue item q = (NotQueued, q).
Proof. intros H. unfold enqueue. now rewrite H. Qed.

(** C4: items of tiers low, high, normal, high, enqueued in that order on
    empty queues, are serviced in the order high, high, normal, low, the two
    high items in their order of arrival, whatever the batch size limit. *)
Theorem flush_order_low_high_normal_high
  (limit n : nat) (a b c d : QueueItem) :
  1 <= limit ->
  4 <= n ->
  priority a = low ->
  priority b = high ->
  priority c = normal ->
  priority d = high ->
  fst (ticks limit n (enqueue_all [a; b; c; d] empty)) = [b; d; c; a] /\
  pending (snd (ticks limit n (enqueue_all [a; b; c; d] empty))) = [] /\
  (4 <= limit -> fst (flush limit (enqueue_all [a; b; c; d] empty)) = [b; d; c; a]).
Proof.
  intros Hlimit Hn Ha Hb Hc Hd.
  assert (Hp : pending (enqueue_all [a; b; c; d] empty) = [b; d; c; a]).
  { unfold pending.
    destruct (enqueue_all_tiers [a; b; c; d] empty) as (-> & -> & ->).
    cbn [filter of_tier empty q_high q_normal q_low].
    rewrite Ha, Hb, Hc, Hd. reflexivity. }
  destruct (ticks_drain limit n (enqueue_all [a; b; c; d] empty) Hlimit)
    as [Hs He].
  { rewrite Hp. exact Hn. }
  rewrite Hs, He, Hp.
  split; [ reflexivity | ]. split; [ reflexivity | ].
  intros H4. rewrite flush_serviced, Hp.
  apply firstn_all2. cbn. exact H4.
Qed.

Lemma flush_order_low_high_normal_high_witness :
  fst (ticks 2 4
         (enqueue_all
            [ {| request := JString "first"; priority := low; enqueueTime := 1 |};
              {| request := JString "second"; priority := high; enqueueTime := 2 |};
              {| request := JString "third"; priority := normal; enqueueTime := 3 |};
              {| request := JString "fourth"; priority := high; enqueueTime := 4 |} ]
            empty)) =
  [ {| request := JString "second"; priority := high; enqueueTime := 2 |};
    {| request := JString "fourth"; priority := high; enqueueTime := 4 |};
    {| request := JString "third"; priority := normal; enqueueTime := 3 |};
    {| request := JString "first"; priority := low; enqueueTime := 1 |} ].
Proof.
  exact (proj1 (flush_order_low_high_normal_high 2 4
                  {| request := JString "first"; priority := low; enqueueTime := 1 |}
                  {| request := JString "second"; priority := high; enqueueTime := 2 |}
                  {| request := JString "third"; priority := normal; enqueueTime := 3 |}
                  {| request := JString "fourth"; priority := high; enqueueTime := 4 |}
                  (le_S _ _ (le_n 1)) (le_n 4) eq_refl eq_refl eq_refl eq_refl)).
Defined.

End BatchQueueFacts.

(** * More of the runner *)

Section Runner.

Variable number_to_string : float -> string.

(** ** One request and the files *)

Lemma request_logging_world (e : env) (method path : string) (w : world) :
  snd (request_logging e method path w) =
  {| logFile :=
       (logFile w ++
        (if mw_write_ok e
         then [(mw_stamp e ++ " - " ++ method ++ " " ++ path ++ newline)%string]
         else []))%list;
     timers := timers w |}.
Proof.
  unfold request_logging, try_catch, appendFileSync.
  destruct w as [lines waits], (mw_write_ok e); cbn; [ reflexivity | ].
  now rewrite app_nil_r.
Qed.

(** Whether ToString throws, read off [printable]. *)
Lemma ToString_Throw_iff (v : value) :
  ToString number_to_string v = Throw <-> printable v = false.
Proof.
  pose proof (ToString_printable number_to_string v) as H.
  destruct (ToString number_to_string v); split; intros E;
    try discriminate E; try reflexivity; congruence.
Qed.

(** X1: POST /generate answers 500 exactly when the body is null or
    undefined, or passes validation and then either one of userId,
    complexity, priority and the quoted content does not convert to a
    string or the handler's log line cannot be written. *)
Theorem generate_500_exactly
  (p : process_env) (e : env) (reqBody : value) (w : world) :
  status (fst (serve number_to_string p e (POST_generate reqBody) w)) = 500 <->
  nullish reqBody = true \/
  (passes_validation reqBody = true /\
   (printable (get reqBody "userId") = false \/
    printable (get reqBody "complexity") = false \/
    printable (get reqBody "priority") = false \/
    printable (quoted_of reqBody) = false \/
    log_write_ok e = false)).
Proof.
  rewrite serve_generate.
  set (w1 := snd (request_logging e "POST" "/generate" w)).
  destruct (nullish reqBody) eqn:Hn.
  { rewrite generate_nullish by exact Hn. split; auto. }
  destruct (passes_validation reqBody) eqn:Hv.
  2: { rewrite generate_rejected by assumption. cbn.
       split; [ discriminate | intros [H | [H _]]; discriminate H ]. }
  rewrite generate_validated by exact Hv.
  pose proof (ToString_printable number_to_string (get reqBody "complexity")) as Pc.
  pose proof (ToString_printable number_to_string (get reqBody "priority")) as Pp.
  pose proof (ToString_printable number_to_string (get reqBody "userId")) as Pu.
  pose proof (ToString_printable number_to_string (quoted_of reqBody)) as Pq.
  destruct (ToString number_to_string (get reqBody "complexity"));
    [ | split; auto 7 ].
  destruct (ToString number_to_string (get reqBody "priority"));
    [ | split; auto 7 ].
  destruct (ToString number_to_string (get reqBody "userId"));
    [ | split; auto 7 ].
  cbv zeta.
  destruct (log_write_ok e); [ | split; auto 8 ].
  destruct (ToString number_to_string (quoted_of reqBody));
    [ | split; auto 8 ].
  cbn. split; [ discriminate | ].
  intros [H | [_ [H | [H | [H | [H | H]]]]]]; congruence.
Qed.

(** X2: a request answered 400 leaves no trace of its own: it sets no
    timer, and the log file gets the one line of the request logger, or
    nothing when that line could not be written. *)
Theorem rejected_request_leaves_no_trace
  (p : process_env) (e : env) (reqBody : value) (w : world) :
  status (fst (serve number_to_string p e (POST_generate reqBody) w)) = 400 ->
  timers (snd (serve number_to_string p e (POST_generate reqBody) w)) = timers w /\
  exists logged : list string,
    logFile (snd (serve number_to_string p e (POST_generate reqBody) w)) =
      (logFile w ++ logged)%list /\
    length logged = (if mw_write_ok e then 1 else 0)%nat.
Proof.
  rewrite serve_generate. intros H.
  destruct (generate_outcome number_to_string e reqBody
              (snd (request_logging e "POST" "/generate" w)))
    as [(Hn & Hv & _) | [(_ & E) | (_ & q & _ & E)]];
    try (rewrite E in H; discriminate H).
  rewrite generate_rejected by assumption.
  cbn [snd]. rewrite request_logging_world. cbn [timers logFile].
  split; [ reflexivity | ].
  eexists. split; [ reflexivity | ].
  destruct (mw_write_ok e); reflexivity.
Qed.


(** Every delay of the handler lies between one millisecond and five
    seconds, whatever the complexity says. *)
Lemma processingTime_bounds (key : string) :
  1 <= processingTime_ms (processingTimes_at key) <= 5000.
Proof.
  unfold processingTimes_at, processingTimes. cbn [assoc].
  destruct ("low" =? key); [ cbn; lia | ].
  destruct ("medium" =? key); [ cbn; lia | ].
  destruct ("high" =? key); [ cbn; lia | ].
  destruct ("very_high" =? key); [ cbn; lia | ].
  destruct (existsb (String.eqb key) object_prototype_keys); cbn; lia.
Qed.

(** What /generate adds to the log file and to the timers: at most one
    line, and at most one timer, set only for a truthy forceFresh. *)
Lemma generate_effects (e : env) (reqBody : value) (w : world) :
  exists (lines : list string) (waits : list Z),
    snd (generate number_to_string e reqBody w) =
      {| logFile := (logFile w ++ lines)%list;
         timers := (timers w ++ waits)%list |} /\
    (length lines <= 1)%nat /\
    (length waits <= 1)%nat /\
    (truthy (forceFresh_of reqBody) = false -> waits = []) /\
    Forall (fun ms => 1 <= ms <= 5000) waits.
Proof.
  assert (Hnone : forall w0 : world,
    w0 = {| logFile := (logFile w0 ++ [])%list;
            timers := (timers w0 ++ [])%list |}).
  { intros [lines waits]. cbn. now rewrite !app_nil_r. }
  destruct (nullish reqBody) eqn:Hn.
  { exists [], []. rewrite generate_nullish by exact Hn. cbn [snd].
    repeat split; auto. }
  destruct (passes_validation reqBody) eqn:Hv.
  2: { exists [], []. rewrite generate_rejected by assumption. cbn [snd].
       repeat split; auto. }
  rewrite generate_validated by exact Hv.
  destruct (ToString number_to_string (get reqBody "complexity")) as [key|].
  2: { exists [], []. cbn [snd]. repeat split; auto. }
  pose proof (processingTime_bounds key) as Hb.
  set (waits := if truthy (forceFresh_of reqBody)
                then [processingTime_ms (processingTimes_at key)] else []).
  assert (Hw1 :
    (if truthy (forceFresh_of reqBody)
     then {| logFile := logFile w;
             timers := (timers w ++ [processingTime_ms (processingTimes_at key)])%list |}
     else w) =
    {| logFile := (logFile w ++ [])%list; timers := (timers w ++ waits)%list |}).
  { subst waits. destruct (truthy (forceFresh_of reqBody)); [ | apply Hnone ].
    now rewrite app_nil_r. }
  assert (Hwaits : (length waits <= 1)%nat /\
                   (truthy (forceFresh_of reqBody) = false -> waits = []) /\
                   Forall (fun ms => 1 <= ms <= 5000) waits).
  { subst waits. destruct (truthy (forceFresh_of reqBody)); cbn;
      repeat split; auto; try discriminate. }
  destruct (ToString number_to_string (get reqBody "priority")).
  2: { exists [], waits. cbn [snd]. rewrite Hw1.
       split; [ reflexivity | split; [ cbn; lia | exact Hwaits ] ]. }
  destruct (ToString number_to_string (get reqBody "userId")) as [user|].
  2: { exists [], waits. cbn [snd]. rewrite Hw1.
       split; [ reflexivity | split; [ cbn; lia | exact Hwaits ] ]. }
  cbv zeta. rewrite Hw1. cbn [logFile timers].
  destruct (log_write_ok e).
  2: { exists [], waits. cbn [snd].
       split; [ reflexivity | split; [ cbn; lia | exact Hwaits ] ]. }
  eexists _, waits.
  split; [ | split; [ | exact Hwaits ] ].
  - destruct (ToString number_to_string (quoted_of reqBody)); cbn [snd];
      rewrite app_nil_r; reflexivity.
  - cbn. lia.
Qed.

(** What any request adds: the logger's line, then what its handler
    adds. *)
Lemma serve_effects (p : process_env) (e : env) (r : request) (w : world) :
  exists (lines : list string) (waits : list Z),
    snd (serve number_to_string p e r w) =
      {| logFile := (logFile w ++ lines)%list;
         timers := (timers w ++ waits)%list |} /\
    (length lines <= 2)%nat /\
    (length waits <= 1)%nat /\
    Forall (fun ms => 1 <= ms <= 5000) waits.
Proof.
  assert (Hlog : forall method path,
    exists line0 : list string,
      snd (request_logging e method path w) =
        {| logFile := (logFile w ++ line0)%list; timers := timers w |} /\
      (length line0 <= 1)%nat).
  { intros method path. rewrite request_logging_world.
    eexists. split; [ reflexivity | ]. destruct (mw_write_ok e); cbn; lia. }
  destruct r as [ | reqBody | ].
  - destruct (Hlog "GET" "/health") as (line0 & E & Hlen).
    exists line0, []. unfold serve.
    destruct (request_logging e "GET" "/health" w) as [u w1]. cbn [snd] in *.
    subst w1. cbn. rewrite app_nil_r. repeat split; auto; lia.
  - destruct (Hlog "POST" "/generate") as (line0 & E & Hlen).
    rewrite serve_generate.
    destruct (generate_effects e reqBody
                (snd (request_logging e "POST" "/generate" w)))
      as (lines & waits & Eg & Hl & Hw & _ & Hb).
    exists (line0 ++ lines)%list, waits.
    rewrite Eg, E. cbn [logFile timers]. rewrite app_assoc.
    repeat split; auto. rewrite length_app. lia.
  - destruct (Hlog "GET" "/stats") as (line0 & E & Hlen).
    exists line0, []. unfold serve.
    destruct (request_logging e "GET" "/stats" w) as [u w1]. cbn [snd] in *.
    subst w1. cbn. rewrite app_nil_r. repeat split; auto; lia.
Qed.

(** X3: a /generate request whose forceFresh is false or absent is
    answered without waiting, whatever the answer is: it sets no timer. *)
Theorem cache_hit_sets_no_timer
  (p : process_env) (e : env) (reqBody : value) (w : world) :
  truthy (forceFresh_of reqBody) = false ->
  timers (snd (serve number_to_string p e (POST_generate reqBody) w)) = timers w.
Proof.
  intros Hff. rewrite serve_generate.
  destruct (generate_effects e reqBody
              (snd (request_logging e "POST" "/generate" w)))
    as (lines & waits & E & _ & _ & Hnone & _).
  rewrite E, (Hnone Hff). cbn [timers].
  rewrite request_logging_world. cbn [timers]. apply app_nil_r.
Qed.

(** X4: over any sequence of requests every timer the server waits for
    lasts between 1 and 5000 milliseconds, and there is at most one per
    request. *)
Theorem timers_within_bounds
  (p : process_env) (reqs : list (request * env)) (w : world) :
  exists waits : list Z,
    timers (snd (serve_all number_to_string p reqs w)) = (timers w ++ waits)%list /\
    (length waits <= length reqs)%nat /\
    Forall (fun ms => 1 <= ms <= 5000) waits.
Proof.
  revert w. induction reqs as [ | [r e] rest IH ]; intros w.
  - exists []. cbn. rewrite app_nil_r. auto.
  - cbn [serve_all].
    destruct (serve_effects p e r w) as (lines & waits & E & _ & Hlen & Hb).
    destruct (serve number_to_string p e r w) as [answer w1]. cbn [snd] in E.
    destruct (IH w1) as (more & Em & Hlm & Hbm).
    destruct (serve_all number_to_string p rest w1) as [answers w2].
    cbn [snd] in *. exists (waits ++ more)%list.
    rewrite Em, E. cbn [timers]. rewrite app_assoc.
    split; [ reflexivity | ].
    split; [ rewrite length_app; cbn; lia | ].
    apply Forall_app. auto.
Qed.

(** The log file after a sequence of requests starts with the log file
    before it. *)
Lemma serve_all_log
  (p : process_env) (reqs : list (request * env)) (w : world) :
  exists lines : list string,
    logFile (snd (serve_all number_to_string p reqs w)) =
      (logFile w ++ lines)%list.
Proof.
  revert w. induction reqs as [ | [r e] rest IH ]; intros w.
  - exists []. cbn. now rewrite app_nil_r.
  - cbn [serve_all].
    destruct (serve_effects p e r w) as (lines & waits & E & _).
    destruct (serve number_to_string p e r w) as [answer w1]. cbn [snd] in E.
    destruct (IH w1) as (more & Em).
    destruct (serve_all number_to_string p rest w1) as [answers w2].
    cbn [snd] in *. exists (lines ++ more)%list.
    rewrite Em, E. cbn [logFile]. now rewrite app_assoc.
Qed.

(** X5: over any sequence of requests the log file only grows: the lines
    it had stay in place, and at most two lines are added per request. *)
Theorem log_file_only_grows
  (p : process_env) (reqs : list (request * env)) (w : world) :
  exists lines : list string,
    logFile (snd (serve_all number_to_string p reqs w)) =
      (logFile w ++ lines)%list /\
    (length lines <= 2 * length reqs)%nat.
Proof.
  revert w. induction reqs as [ | [r e] rest IH ]; intros w.
  - exists []. cbn. rewrite app_nil_r. auto.
  - cbn [serve_all].
    destruct (serve_effects p e r w) as (lines & waits & E & Hlen & _ & _).
    destruct (serve number_to_string p e r w) as [answer w1]. cbn [snd] in E.
    destruct (IH w1) as (more & Em & Hlm).
    destruct (serve_all number_to_string p rest w1) as [answers w2].
    cbn [snd] in *. exists (lines ++ more)%list.
    rewrite Em, E. cbn [logFile]. rewrite app_assoc.
    split; [ reflexivity | ].
    rewrite length_app. cbn [length]. lia.
Qed.

(** ** The request logger *)

(** X6: the answer to a request does not depend on the request logger:
    whether its write succeeds or throws, and at whatever time, every route
    gives the same answer. *)
Theorem logger_never_changes_answer
  (p : process_env) (e : env) (stamp : string) (ok : bool)
  (r : request) (w : world) :
  fst (serve number_to_string p (with_logger e stamp ok) r w) =
  fst (serve number_to_string p e r w).
Proof.
  destruct r as [ | reqBody | ].
  - rewrite !serve_health. reflexivity.
  - rewrite !serve_generate.
    rewrite (generate_answer_any_world number_to_string e reqBody
               (snd (request_logging e "POST" "/generate" w))
               (snd (request_logging (with_logger e stamp ok)
                       "POST" "/generate" w))).
    reflexivity.
  - rewrite !serve_stats. reflexivity.
Qed.

(** ** What the log file says of a request *)


(** X8: when only the content to quote does not convert to a string, the
    request is answered 500 after its line was written: the log file ends
    with a line that says a response was generated. *)
Theorem failed_answer_logged_as_generated
  (p : process_env) (e : env) (reqBody : value) (w : world) (user key : string) :
  passes_validation reqBody = true ->
  ToString number_to_string (get reqBody "userId") = Ok user ->
  ToString number_to_string (get reqBody "complexity") = Ok key ->
  printable (get reqBody "priority") = true ->
  log_write_ok e = true ->
  printable (quoted_of reqBody) = false ->
  status (fst (serve number_to_string p e (POST_generate reqBody) w)) = 500 /\
  exists earlier : list string,
    logFile (snd (serve number_to_string p e (POST_generate reqBody) w)) =
      (earlier
       ++ [(log_stamp e ++ " - Generated response for user " ++ user
              ++ ", complexity: " ++ key
              ++ ", time: "
              ++ number_to_string (PrimFloat.sub (t_end e) (t_start e))
              ++ "ms" ++ newline)%string])%list.
Proof.
  intros Hv Hu Hc Pp Hlog Pq.
  rewrite serve_generate, generate_validated by exact Hv.
  rewrite Hu, Hc.
  destruct (printable_ToString number_to_string _ Pp) as [shown ->].
  apply ToString_Throw_iff in Pq. rewrite Pq, Hlog. cbv zeta.
  split; [ reflexivity | ].
  cbn [snd logFile]. eexists. reflexivity.
Qed.

(** ** What the handler reads of a request *)

(** Two bodies the handler cannot tell apart. *)
Lemma generate_same (e : env) (body1 body2 : value) (w : world) :
  nullish body1 = nullish body2 ->
  passes_validation body1 = passes_validation body2 ->
  get body1 "userId" = get body2 "userId" ->
  get body1 "complexity" = get body2 "complexity" ->
  get body1 "forceFresh" = get body2 "forceFresh" ->
  quoted_of body1 = quoted_of body2 ->
  printable (get body1 "priority") = printable (get body2 "priority") ->
  generate number_to_string e body1 w = generate number_to_string e body2 w.
Proof.
  intros Hn Hv Hu Hc Hf Hq Hp.
  destruct (nullish body1) eqn:Hn1.
  { now rewrite !generate_nullish. }
  destruct (passes_validation body1) eqn:Hv1.
  2: { now rewrite !generate_rejected. }
  rewrite !generate_validated by auto.
  unfold generated, forceFresh_of. rewrite Hu, Hc, Hf, Hq.
  pose proof (ToString_printable number_to_string (get body1 "priority")) as P1.
  pose proof (ToString_printable number_to_string (get body2 "priority")) as P2.
  destruct (ToString number_to_string (get body1 "priority")),
           (ToString number_to_string (get body2 "priority"));
    try congruence; reflexivity.
Qed.

(** X9: only the last message is quoted: a conversation and its last
    message alone, sent with the same other fields, get the same answer and
    leave the same log file and timers. *)
Theorem only_last_message_is_read
  (p : process_env) (e : env) (body1 body2 : value) (w : world)
  (earlier : list value) (message : value) :
  get body1 "messages" = JArray (earlier ++ [message]) ->
  get body2 "messages" = JArray [message] ->
  get body1 "userId" = get body2 "userId" ->
  get body1 "complexity" = get body2 "complexity" ->
  get body1 "priority" = get body2 "priority" ->
  get body1 "forceFresh" = get body2 "forceFresh" ->
  serve number_to_string p e (POST_generate body1) w =
  serve number_to_string p e (POST_generate body2) w.
Proof.
  intros H1 H2 Hu Hc Hp Hf.
  rewrite !serve_generate.
  assert (N1 : nullish body1 = false)
    by (destruct body1; try reflexivity; discriminate H1).
  assert (N2 : nullish body2 = false)
    by (destruct body2; try reflexivity; discriminate H2).
  apply generate_same; try congruence.
  - unfold passes_validation. now rewrite H1, H2, Hu.
  - unfold quoted_of. rewrite H1, H2. unfold last_item.
    now rewrite last_last.
Qed.

(** X10: the handler reads userId, messages, complexity and forceFresh,
    and of the priority only whether it converts to a string: two bodies
    that agree on these get the same answer and leave the same log file and
    timers, whatever their priority and responseFormat are. *)
Theorem priority_and_format_are_not_read
  (p : process_env) (e : env) (body1 body2 : value) (w : world) :
  nullish body1 = nullish body2 ->
  get body1 "userId" = get body2 "userId" ->
  get body1 "messages" = get body2 "messages" ->
  get body1 "complexity" = get body2 "complexity" ->
  get body1 "forceFresh" = get body2 "forceFresh" ->
  printable (get body1 "priority") = true ->
  printable (get body2 "priority") = true ->
  serve number_to_string p e (POST_generate body1) w =
  serve number_to_string p e (POST_generate body2) w.
Proof.
  intros Hn Hu Hm Hc Hf P1 P2.
  rewrite !serve_generate.
  apply generate_same; try congruence.
  - unfold passes_validation. now rewrite Hu, Hm.
  - unfold quoted_of. now rewrite Hm.
Qed.

(** ** Status codes *)

(** X11: over any sequence of requests, /health is answered 200 or 503,
    /generate 200, 400 or 500, and /stats 200. *)
Theorem status_codes
  (p : process_env) (reqs : list (request * env)) (w : world)
  (i : nat) (r : request) (e : env) :
  nth_error reqs i = Some (r, e) ->
  exists answer,
    nth_error (fst (serve_all number_to_string p reqs w)) i = Some answer /\
    match r with
    | GET_health => status answer = 200 \/ status answer = 503
    | POST_generate _ =>
        status answer = 200 \/ status answer = 400 \/ status answer = 500
    | GET_stats => status answer = 200
    end.
Proof.
  intros Hi.
  destruct (serve_all_nth number_to_string p reqs w i r e Hi) as [w0 H0].
  eexists. split; [ exact H0 | ].
  destruct r as [ | reqBody | ].
  - rewrite serve_health. unfold health. cbn [fst status res_json].
    destruct (env_set (OPENAI_API_KEY p) || env_set (GEMINI_API_KEY p)); auto.
  - rewrite serve_generate.
    destruct (generate_outcome number_to_string e reqBody
                (snd (request_logging e "POST" "/generate" w0)))
      as [(_ & _ & E) | [(_ & E) | (_ & q & _ & E)]]; rewrite E; cbn; auto.
  - rewrite serve_stats. reflexivity.
Qed.

(** ** Nothing to quote *)

(** X12: when the conversation is empty, or its last message has no
    content or a falsy one, an accepted request is answered 200 with the
    fixed text quoted in place of the content. *)
Theorem nothing_to_quote
  (p : process_env) (e : env) (reqBody : value) (w : world)
  (items : list value) :
  truthy (get reqBody "userId") = true ->
  get reqBody "messages" = JArray items ->
  truthy (opt_get (last_item items) "content") = false ->
  printable (get reqBody "userId") = true ->
  printable (get reqBody "complexity") = true ->
  printable (get reqBody "priority") = true ->
  log_write_ok e = true ->
  status (fst (serve number_to_string p e (POST_generate reqBody) w)) = 200 /\
  at_path (body (fst (serve number_to_string p e (POST_generate reqBody) w)))
    ["response"] =
  Some (JString ("This is a test response to: " ++ dquote ++ "your query" ++ dquote)).
Proof.
  intros Hu Hm Hfalsy Pu Pc Pp Hlog.
  assert (Hq : quoted_of reqBody = JString "your query").
  { unfold quoted_of, js_or. now rewrite Hm, Hfalsy. }
  assert (Hv : passes_validation reqBody = true).
  { apply passes_validation_spec. now rewrite Hm. }
  rewrite serve_generate.
  destruct (generate_accepted number_to_string e reqBody
              (snd (request_logging e "POST" "/generate" w)) Hv Pu Pc Pp)
    as (q & Eq & E); [ now rewrite Hq | exact Hlog | ].
  rewrite Hq in Eq. injection Eq as <-.
  rewrite E. split; [ reflexivity | apply generated_response ].
Qed.

(** ** Starting the service *)


(** X14: once the service has started and listens, the port file holds
    the port it listens on and the pid file the process id, and whatever
    requests follow, the log file is the one found at the start, then the
    starting line, then the line that names that same port, then the lines
    of the requests. *)
Theorem started_service_files
  (b : boot_env) (d d1 : disk) (PORT : value) (w2 : world)
  (p : process_env) (reqs : list (request * env)) :
  start number_to_string b d = Listening PORT d1 ->
  listening number_to_string b (service d1) = (Ok tt, w2) ->
  ToString number_to_string PORT = Ok (PORT_text number_to_string b) /\
  portFile d1 = Some (PORT_text number_to_string b) /\
  pidFile d1 = Some (number_to_string (pid b)) /\
  logDir d1 = true /\
  exists lines : list string,
    logFile (snd (serve_all number_to_string p reqs w2)) =
      (logFile (service d)
       ++ [(boot_stamp b ++ " - Starting AI Optimization Service" ++ newline)%string;
           (listen_stamp b ++ " - AI Service started on port "
              ++ PORT_text number_to_string b ++ newline)%string]
       ++ lines)%list.
Proof.
  intros Hstart Hlisten.
  destruct (serve_all_log p reqs w2) as (lines & E).
  unfold start, appendFileSync in Hstart.
  unfold listening, appendFileSync in Hlisten.
  destruct (modules_ok b); [ | discriminate Hstart ].
  destruct (negb (logDir d) && negb (mkdir_ok b)); [ discriminate Hstart | ].
  destruct (port_write b); [ | discriminate Hstart ].
  destruct (pid_write b); [ | discriminate Hstart ].
  destruct (boot_log_ok b); [ | discriminate Hstart ].
  destruct (listen_log_ok b); [ | discriminate Hlisten ].
  cbn in Hstart. injection Hstart as <- <-.
  injection Hlisten as <-.
  cbn [portFile pidFile logDir service logFile] in *.
  split.
  { unfold PORT_text, PORT_of, js_or.
    destruct (AI_SERVICE_PORT b) as [[ | c s] | ]; reflexivity. }
  repeat (split; [ reflexivity | ]).
  exists lines. rewrite E. cbn [logFile].
  now rewrite <- !app_assoc.
Qed.

End Runner.

(** ** The runner on the example requests *)

Lemma rejected_request_leaves_no_trace_witness :
  timers (snd (serve integral_number_to_string example_process example_env
                 (POST_generate user_zero_request)
                 {| logFile := []; timers := [500] |})) = [500].
Proof.
  exact (proj1 (rejected_request_leaves_no_trace integral_number_to_string
                  example_process example_env user_zero_request
                  {| logFile := []; timers := [500] |} eq_refl)).
Defined.

Lemma cache_hit_sets_no_timer_witness :
  timers (snd (serve integral_number_to_string example_process example_env
                 (POST_generate (snack_request "very_high" "low" false))
                 fresh_world)) = [].
Proof.
  exact (cache_hit_sets_no_timer integral_number_to_string example_process
           example_env (snack_request "very_high" "low" false) fresh_world
           eq_refl).
Defined.


Lemma failed_answer_logged_as_generated_witness :
  status (fst (serve integral_number_to_string example_process example_env
                 (POST_generate unquotable_request) fresh_world)) = 500.
Proof.
  exact (proj1 (failed_answer_logged_as_generated integral_number_to_string
                  example_process example_env unquotable_request fresh_world
                  "1" "undefined" eq_refl eq_refl eq_refl eq_refl eq_refl eq_refl)).
Defined.

Lemma only_last_message_is_read_witness :
  serve integral_number_to_string example_process example_env
    (POST_generate (conversation_request two_messages)) fresh_world =
  serve integral_number_to_string example_process example_env
    (POST_generate (conversation_request
                      [JObject [("role", JString "user");
                                ("content", JString "How much water?")]]))
    fresh_world.
Proof.
  exact (only_last_message_is_read integral_number_to_string example_process
           example_env (conversation_request two_messages)
           (conversation_request
              [JObject [("role", JString "user");
                        ("content", JString "How much water?")]])
           fresh_world
           [JObject [("role", JString "system"); ("content", JString "Be brief.")]]
           (JObject [("role", JString "user"); ("content", JString "How much water?")])
           eq_refl eq_refl eq_refl eq_refl eq_refl eq_refl).
Defined.

Lemma priority_and_format_are_not_read_witness :
  serve integral_number_to_string example_process example_env
    (POST_generate (snack_request "medium" "critical" true)) fresh_world =
  serve integral_number_to_string example_process example_env
    (POST_generate
       (JObject [("responseFormat", JString "json"); ("userId", JNumber 1);
                 ("messages", snack_messages); ("complexity", JString "medium");
                 ("priority", JArray [JString "low"]);
                 ("forceFresh", JBool true)]))
    fresh_world.
Proof.
  exact (priority_and_format_are_not_read integral_number_to_string
           example_process example_env
           (snack_request "medium" "critical" true)
           (JObject [("responseFormat", JString "json"); ("userId", JNumber 1);
                     ("messages", snack_messages); ("complexity", JString "medium");
                     ("priority", JArray [JString "low"]);
                     ("forceFresh", JBool true)])
           fresh_world eq_refl eq_refl eq_refl eq_refl eq_refl eq_refl eq_refl).
Defined.

Lemma status_codes_witness :
  exists answer,
    nth_error
      (fst (serve_all integral_number_to_string
              {| OPENAI_API_KEY := None; GEMINI_API_KEY := Some "" |}
              [(GET_stats, example_env); (GET_health, example_env)]
              fresh_world)) 1 = Some answer /\
    (status answer = 200 \/ status answer = 503).
Proof.
  exact (status_codes integral_number_to_string
           {| OPENAI_API_KEY := None; GEMINI_API_KEY := Some "" |}
           [(GET_stats, example_env); (GET_health, example_env)]
           fresh_world 1 GET_health example_env eq_refl).
Defined.

Lemma nothing_to_quote_witness :
  at_path
    (body (fst (serve integral_number_to_string example_process example_env
                  (POST_generate (conversation_request [])) fresh_world)))
    ["response"] =
  Some (JString ("This is a test response to: " ++ dquote ++ "your query" ++ dquote)).
Proof.
  exact (proj2 (nothing_to_quote integral_number_to_string example_process
                  example_env (conversation_request []) fresh_world []
                  eq_refl eq_refl eq_refl eq_refl eq_refl eq_refl eq_refl)).
Defined.

Lemma started_service_files_witness :
  portFile
    {| logDir := true; portFile := Some "5200"; pidFile := Some "4242";
       service :=
         {| logFile :=
              [("2025-01-01T00:00:00.000Z - Starting AI Optimization Service"
                  ++ newline)%string];
            timers := [] |} |} =
  Some (PORT_text integral_number_to_string example_boot).
Proof.
  exact (proj1 (proj2
    (started_service_files integral_number_to_string example_boot empty_disk
       {| logDir := true; portFile := Some "5200"; pidFile := Some "4242";
          service :=
            {| logFile :=
                 [("2025-01-01T00:00:00.000Z - Starting AI Optimization Service"
                     ++ newline)%string];
               timers := [] |} |}
       (JNumber 5200)
       {| logFile :=
            [("2025-01-01T00:00:00.000Z - Starting AI Optimization Service"
                ++ newline)%string;
             ("2025-01-01T00:00:00.050Z - AI Service started on port 5200"
                ++ newline)%string];
          timers := [] |}
       example_process [(GET_health, example_env)]
       eq_refl eq_refl))).
Defined.

(** * The workflow script *)

Module WorkflowFacts.

Import Workflow.

Lemma reparse_array (items : list value) :
  reparse (JArray items) = JArray (reparse_items items).
Proof. reflexivity. Qed.

Lemma reparse_object (fields : list (string * value)) :
  reparse (JObject fields) = JObject (reparse_fields fields).
Proof. reflexivity. Qed.

(** Only undefined is written as nothing. *)
Lemma reparse_undefined (v : value) :
  reparse v = JUndefined -> v = JUndefined.
Proof.
  intros H. destruct v; cbn [reparse] in H; try discriminate H; [ reflexivity | ].
  destruct (PrimFloat.is_finite f); [ | discriminate H ].
  destruct (PrimFloat.is_zero f); discriminate H.
Qed.

Lemma undefined_or_not (v : value) : v = JUndefined \/ v <> JUndefined.
Proof. destruct v; [ now left | right; discriminate .. ]. Qed.

Lemma reparse_items_cons (x : value) (rest : list value) :
  x <> JUndefined ->
  reparse_items (x :: rest) = reparse x :: reparse_items rest.
Proof. destruct x; [ congruence | reflexivity .. ]. Qed.

Lemma reparse_fields_cons (k : string) (x : value) (rest : list (string * value)) :
  x <> JUndefined ->
  reparse_fields ((k, x) :: rest) = (k, reparse x) :: reparse_fields rest.
Proof. destruct x; [ congruence | reflexivity .. ]. Qed.

(** Writing a file and reading it back changes nothing after the first
    time. *)
Lemma reparse_idempotent (v : value) : reparse (reparse v) = reparse v.
Proof.
  induction v as [ | | b | f | s | items IH | fields IH ] using value_induction;
    try reflexivity.
  - cbn [reparse].
    destruct (PrimFloat.is_finite f) eqn:Hfin; [ | reflexivity ].
    destruct (PrimFloat.is_zero f) eqn:Hzero; [ reflexivity | ].
    cbn [reparse]. now rewrite Hfin, Hzero.
  - rewrite !reparse_array. f_equal.
    induction IH as [ | x rest Hx _ IHrest ]; [ reflexivity | ].
    destruct (undefined_or_not x) as [-> | Hdef].
    + cbn [reparse_items reparse]. now rewrite IHrest.
    + rewrite (reparse_items_cons x rest Hdef).
      rewrite reparse_items_cons, Hx, IHrest; [ reflexivity | ].
      intros E. apply Hdef. now apply reparse_undefined.
  - rewrite !reparse_object. f_equal.
    induction IH as [ | [k x] rest Hx _ IHrest ]; [ reflexivity | ].
    cbn [snd] in Hx.
    destruct (undefined_or_not x) as [-> | Hdef].
    + cbn [reparse_fields]. exact IHrest.
    + rewrite (reparse_fields_cons k x rest Hdef).
      rewrite reparse_fields_cons, Hx, IHrest; [ reflexivity | ].
      intros E. apply Hdef. now apply reparse_undefined.
Qed.

(** Setting a property: it is found, and no other one moves. *)
Lemma own_set_field (k : string) (v : value) (fields : list (string * value)) :
  own k (set_field k v fields) = Some v.
Proof.
  induction fields as [ | [k' x] rest IH ]; cbn [set_field own].
  - now rewrite String.eqb_refl.
  - destruct (k' =? k) eqn:E; cbn [own].
    + now rewrite String.eqb_refl.
    + now rewrite E.
Qed.

Lemma set_field_present (k : string) (v : value) (fields : list (string * value)) :
  own k fields = Some v -> set_field k v fields = fields.
Proof.
  induction fields as [ | [k' x] rest IH ]; cbn [set_field own]; [ discriminate | ].
  destruct (k' =? k) eqn:E.
  - apply String.eqb_eq in E. intros H. injection H as ->. now subst k'.
  - intros H. now rewrite IH.
Qed.

(** A property set to a defined value is in the file that is written, and
    the other properties are the ones the file would have had without it. *)
Lemma own_reparse_set_same
  (k : string) (v : value) (fields : list (string * value)) :
  v <> JUndefined ->
  own k (reparse_fields (set_field k v fields)) = Some (reparse v).
Proof.
  intros Hv.
  induction fields as [ | [k' x] rest IH ]; cbn [set_field].
  - rewrite reparse_fields_cons by exact Hv. cbn [own].
    now rewrite String.eqb_refl.
  - destruct (k' =? k) eqn:E.
    + rewrite reparse_fields_cons by exact Hv. cbn [own].
      now rewrite String.eqb_refl.
    + destruct (undefined_or_not x) as [-> | Hx].
      * cbn [reparse_fields]. exact IH.
      * rewrite reparse_fields_cons by exact Hx. cbn [own]. now rewrite E.
Qed.

Lemma own_reparse_set_other
  (k name : string) (v : value) (fields : list (string * value)) :
  name <> k ->
  own name (reparse_fields (set_field k v fields)) =
  own name (reparse_fields fields).
Proof.
  intros Hname.
  assert (Hk : (k =? name) = false) by (apply String.eqb_neq; congruence).
  induction fields as [ | [k' x] rest IH ]; cbn [set_field].
  - destruct (undefined_or_not v) as [-> | Hv]; [ reflexivity | ].
    rewrite reparse_fields_cons by exact Hv. cbn [own]. now rewrite Hk.
  - destruct (k' =? k) eqn:E.
    + apply String.eqb_eq in E. subst k'.
      assert (Hskip : forall y : value,
        own name (reparse_fields ((k, y) :: rest)) =
        own name (reparse_fields rest)).
      { intros y. destruct (undefined_or_not y) as [-> | Hy]; [ reflexivity | ].
        rewrite reparse_fields_cons by exact Hy. cbn [own]. now rewrite Hk. }
      now rewrite !Hskip.
    + destruct (undefined_or_not x) as [-> | Hx].
      * cbn [reparse_fields]. exact IH.
      * rewrite !reparse_fields_cons by exact Hx. cbn [own]. now rewrite IH.
Qed.

(** The entry is written as it is. *)
Lemma ai_service_entry_written : reparse ai_service_entry = ai_service_entry.
Proof. reflexivity. Qed.

(** X15: on a configuration file that holds an object, the update keeps
    every other workflow: after it each name other than [AI Service] has the
    entry the file had, as JSON writes it. *)
Theorem update_keeps_other_workflows
  (fields : list (string * value)) (name : string) :
  name <> "AI Service" ->
  workflow (snd (updateWorkflow (Holds (Some (JObject fields))) ConfigWritten)) name =
  workflow (Holds (Some (reparse (JObject fields)))) name.
Proof.
  intros Hname. cbn [updateWorkflow assign snd].
  rewrite !reparse_object. cbn [workflow].
  now apply own_reparse_set_other.
Qed.

(** X16: on a file that is absent, does not parse or holds an object, an
    update whose write succeeds reports success and leaves a file that
    lists the AI Service workflow with the script's entry; when there was
    no file or no parsable one, that is the only workflow. *)
Theorem update_sets_entry (file : config_file) :
  match file with
  | Absent | Holds None | Holds (Some (JObject _)) => True
  | _ => False
  end ->
  fst (updateWorkflow file ConfigWritten) = true /\
  workflow (snd (updateWorkflow file ConfigWritten)) "AI Service" =
    Some ai_service_entry /\
  (match file with
   | Holds (Some _) => True
   | _ =>
       snd (updateWorkflow file ConfigWritten) =
       Holds (Some (JObject [("AI Service", ai_service_entry)]))
   end).
Proof.
  destruct file as [ | | [parsed | ]]; try contradiction.
  - intros _. repeat split; reflexivity.
  - destruct parsed; try contradiction. intros _.
    cbn [updateWorkflow assign fst snd]. rewrite reparse_object.
    cbn [workflow]. split; [ reflexivity | ]. split; [ | exact I ].
    rewrite own_reparse_set_same by discriminate.
    now rewrite ai_service_entry_written.
  - intros _. repeat split; reflexivity.
Qed.

(** X17: on such a file a second update changes nothing: run on the file
    the first one wrote, it reports success again and writes the same. *)
Theorem update_twice (file : config_file) :
  match file with
  | Absent | Holds None | Holds (Some (JObject _)) => True
  | _ => False
  end ->
  updateWorkflow (snd (updateWorkflow file ConfigWritten)) ConfigWritten =
  updateWorkflow file ConfigWritten.
Proof.
  destruct file as [ | | [parsed | ]]; try contradiction.
  - intros _. reflexivity.
  - destruct parsed; try contradiction. intros _.
    cbn [updateWorkflow assign snd]. rewrite reparse_object.
    cbn [assign].
    rewrite set_field_present.
    + rewrite <- reparse_object. now rewrite reparse_idempotent.
    + rewrite own_reparse_set_same by discriminate.
      now rewrite ai_service_entry_written.
  - intros _. reflexivity.
Qed.

(** X18: on a file that holds null the update fails before it writes and
    reports failure; on a file that holds an array, a boolean, a number or
    a string it reports success, but the file it writes lists no AI Service
    workflow. *)
Theorem update_on_non_object (parsed : value) (outcome : config_write) :
  match parsed with
  | JObject _ => True
  | JUndefined | JNull =>
      updateWorkflow (Holds (Some parsed)) outcome = (false, Holds (Some parsed))
  | _ =>
      fst (updateWorkflow (Holds (Some parsed)) ConfigWritten) = true /\
      snd (updateWorkflow (Holds (Some parsed)) ConfigWritten) =
        Holds (Some (reparse parsed)) /\
      workflow (snd (updateWorkflow (Holds (Some parsed)) ConfigWritten))
        "AI Service" = None
  end.
Proof.
  destruct parsed; try exact I; try reflexivity;
    cbn [updateWorkflow assign fst snd]; repeat split.
  cbn [reparse workflow].
  destruct (PrimFloat.is_finite f); [ | reflexivity ].
  destruct (PrimFloat.is_zero f); reflexivity.
Qed.

Lemma update_keeps_other_workflows_witness :
  workflow
    (snd (updateWorkflow (Holds (Some (JObject one_workflow))) ConfigWritten))
    "Start application" =
  Some (JObject [("startCommand",
                   JArray [JString "npm"; JString "run"; JString "dev"])]).
Proof.
  exact (update_keeps_other_workflows one_workflow "Start application"
           ltac:(discriminate)).
Defined.

Lemma update_sets_entry_witness :
  workflow
    (snd (updateWorkflow (Holds (Some (JObject one_workflow))) ConfigWritten))
    "AI Service" = Some ai_service_entry.
Proof.
  exact (proj1 (proj2 (update_sets_entry (Holds (Some (JObject one_workflow))) I))).
Defined.

Lemma update_twice_witness :
  updateWorkflow
    (snd (updateWorkflow (Holds (Some (JObject one_workflow))) ConfigWritten))
    ConfigWritten =
  updateWorkflow (Holds (Some (JObject one_workflow))) ConfigWritten.
Proof.
  exact (update_twice (Holds (Some (JObject one_workflow))) I).
Defined.

End WorkflowFacts.
